(** * Forseti Security inventory: the project IAM policies pipeline

    A shallow embedding of
    [google/cloud/security/inventory/pipelines/load_projects_iam_policies_pipeline.py]
    and [google/cloud/security/common/util/log_util.py].

    Python objects that the code shares and mutates (the per-project
    dictionaries built by [_retrieve], read by the [_flatten] generator and
    overwritten by [_load]) live in an explicit heap; exceptions are values
    of [exn]; the collaborators injected through the constructor (dao, API
    client, member parser) are records of functions. *)

From stdpp Require Import base option list strings gmap.
From Stdlib Require Import ZArith Ascii Lia.

Open Scope string_scope.
Open Scope list_scope.
Open Scope stdpp_scope.

(** ** Python values, exceptions and generators *)

Module Py.

(** The exception classes the two modules name, plus the ones the
    interpreter itself raises on the paths modelled here. *)
Inductive exn : Type :=
| CSVFileError (msg : string)            (* data_access_errors *)
| MySQLError (msg : string)              (* data_access_errors *)
| ApiExecutionError (msg : string)       (* api_errors *)
| LoadDataPipelineError (cause : exn)    (* inventory_errors *)
| AttributeError (msg : string)
| ValueError (msg : string)
| SystemError (msg : string).

Inductive outcome (A : Type) : Type :=
| Return (a : A)
| Raise (e : exn).
Arguments Return {A} a.
Arguments Raise {A} e.

(** [d.get(key, default)] on a dictionary whose key may be absent. *)
Definition get {A : Type} (field : option A) (default : A) : A :=
  match field with
  | Some v => v
  | None => default
  end.

(** [s.startswith(pre)]. *)
Definition startswith (s pre : string) : bool := String.prefix pre s.

(** [s.replace(old, new)]: every non-overlapping occurrence of [old],
    scanning from the left, is replaced by [new].  [skip] counts the
    characters of a matched occurrence still to be dropped. *)
Fixpoint replace_from (old new : string) (skip : nat) (s : string) : string :=
  match s with
  | EmptyString =>
      match skip with
      | O => if String.prefix old EmptyString then new else EmptyString
      | S _ => EmptyString
      end
  | String c rest =>
      match skip with
      | S k => replace_from old new k rest
      | O =>
          if String.prefix old s then
            match String.length old with
            | O => new +:+ String c (replace_from old new 0 rest)
            | S k => new +:+ replace_from old new k rest
            end
          else String c (replace_from old new 0 rest)
      end
  end.

Definition replace (s old new : string) : string := replace_from old new 0 s.

(** What consuming a generator to its end produces: the items yielded,
    in order, and the exception that ended the iteration, if any. *)
Definition generated (A : Type) : Type := (list A * option exn)%type.

Definition gen_done {A : Type} : generated A := ([], None).
Definition gen_yield {A : Type} (x : A) : generated A := ([x], None).
Definition gen_raise {A : Type} (e : exn) : generated A := ([], Some e).

(** Sequencing: what [g] yields, then (unless [g] raised) what [k] yields. *)
Definition gen_then {A : Type} (g k : generated A) : generated A :=
  match g with
  | (ys, None) => (ys ++ k.1, k.2)
  | (ys, Some e) => (ys, Some e)
  end.

(** [for x in l: body(x)] inside a generator. *)
Fixpoint gen_for {A B : Type} (l : list A) (body : A → generated B) : generated B :=
  match l with
  | [] => gen_done
  | x :: l' => gen_then (body x) (gen_for l' body)
  end.

End Py.

Export Py.

(** ** Data model *)

(** A binding of a policy: a dictionary whose keys ['role'] and
    ['members'] may be absent (the code reads both with [.get]). *)
Record binding : Type := {
  binding_role : option string;
  members : option (list string)
}.

(** The policy returned by the CRM API; ['bindings'] may be absent. *)
Record policy : Type := {
  bindings : option (list binding)
}.

(** The value stored under ['iam_policy']: the nested policy as fetched,
    or a text once [_load] has replaced it by [json.dumps] of itself. *)
Inductive py_value : Type :=
| PolicyDict (p : policy)
| Str (s : string).

(** [{'project_number': ..., 'iam_policy': ...}] *)
Record iam_policy_map : Type := {
  project_number : Z;
  iam_policy : py_value
}.

(** The dictionary yielded by [_flatten]. *)
Record flattened : Type := {
  row_project_number : Z;
  role : string;
  member_type : string;
  member_name : string;
  member_domain : string
}.

(** What [dao.load_data] receives, row by row. *)
Inductive row : Type :=
| FlatRow (r : flattened)
| MapRow (m : iam_policy_map).

(** Addresses of the [iam_policy_map] dictionaries. *)
Definition loc : Type := nat.

(** One call of [dao.load_data] that reached the sink. *)
Record dao_call : Type := {
  call_table : string;
  call_cycle : string;
  call_rows : list row;
  call_error : option exn
}.

(** Everything a run reads or changes outside its local variables. *)
Record world : Type := {
  heap : list iam_policy_map;        (* the dictionaries, by address *)
  api_calls : list Z;                (* get_project_iam_policies calls *)
  logged_errors : list (Z * exn);    (* self.logger.error entries *)
  dao_calls : list dao_call;         (* load_data calls, oldest first *)
  count : option Z                   (* self.count *)
}.

Definition set_heap (h : list iam_policy_map) (w : world) : world :=
  {| heap := h; api_calls := api_calls w; logged_errors := logged_errors w;
     dao_calls := dao_calls w; count := count w |}.

Definition add_api_call (n : Z) (w : world) : world :=
  {| heap := heap w; api_calls := api_calls w ++ [n];
     logged_errors := logged_errors w; dao_calls := dao_calls w;
     count := count w |}.

Definition add_logged_error (n : Z) (e : exn) (w : world) : world :=
  {| heap := heap w; api_calls := api_calls w;
     logged_errors := logged_errors w ++ [(n, e)]; dao_calls := dao_calls w;
     count := count w |}.

Definition add_dao_call (c : dao_call) (w : world) : world :=
  {| heap := heap w; api_calls := api_calls w; logged_errors := logged_errors w;
     dao_calls := dao_calls w ++ [c]; count := count w |}.

Definition set_count (n : Z) (w : world) : world :=
  {| heap := heap w; api_calls := api_calls w; logged_errors := logged_errors w;
     dao_calls := dao_calls w; count := Some n |}.

(** ** Statements that may raise and change the world *)

Definition M (A : Type) : Type := world → outcome A * world.

Definition ret {A : Type} (a : A) : M A := λ w, (Return a, w).

Definition raise {A : Type} (e : exn) : M A := λ w, (Raise e, w).

Definition bind {A B : Type} (c : M A) (k : A → M B) : M B :=
  λ w, match c w with
       | (Return a, w') => k a w'
       | (Raise e, w') => (Raise e, w')
       end.

Notation "x <- c ;; k" := (bind c (λ x, k))
  (at level 100, c at next level, right associativity).
Notation "c ;;; k" := (bind c (λ _, k))
  (at level 100, right associativity).

(** [try: body  except ...: handler]: [handler e] is [None] when no
    [except] clause matches the class of [e], which then propagates.
    Changes made to the world before the exception stay. *)
Definition try_except {A : Type} (body : M A) (handler : exn → option (M A)) : M A :=
  λ w, match body w with
       | (Return a, w') => (Return a, w')
       | (Raise e, w') =>
           match handler e with
           | Some h => h w'
           | None => (Raise e, w')
           end
       end.

(** [for x in l: s = body(x, s)] with the locals [s] threaded through. *)
Fixpoint for_in {A S : Type} (l : list A) (body : A → S → M S) (s : S) : M S :=
  match l with
  | [] => ret s
  | x :: l' => s' <- body x s ;; for_in l' body s'
  end.

(** ** Collaborators *)

(** [self.dao].  Its methods are not part of the pipeline module: what
    they answer is a parameter.  [load_data_fault] is the exception
    [load_data] raises for a table, cycle and fully consumed rows, if any. *)
Record Dao : Type := {
  select_project_numbers : string → string → outcome (list Z);
  load_data_fault : string → string → list row → option exn;
  select_record_count : string → string → outcome Z
}.

(** [self.gcp_api_client]. *)
Record CrmClient : Type := {
  get_project_iam_policies : string → Z → outcome policy
}.

(** [self.parser]. *)
Record Parser : Type := {
  parse_member_info : string → outcome (string * string * string)
}.

(** An iterable handed to [dao.load_data]: a generator, whose body runs
    against the heap as it is when the generator is consumed, or a list
    of dictionaries. *)
Inductive iterable : Type :=
| Generator (body : list iam_policy_map → generated row)
| DictList (refs : list loc).

Definition iterate (data : iterable) (h : list iam_policy_map) : generated row :=
  match data with
  | Generator body => body h
  | DictList refs =>
      gen_for refs (λ l,
        match h !! l with
        | Some m => gen_yield (MapRow m)
        | None => gen_raise (SystemError "dangling reference")
        end)
  end.

(** ** The pipeline *)

Module LoadProjectsIamPoliciesPipeline.

Definition RESOURCE_NAME : string := "project_iam_policies".
Definition RAW_RESOURCE_NAME : string := "raw_project_iam_policies".

(** The fields of [self] the methods read.  [name] is what the base
    constructor stored from its first argument. *)
Record pipeline : Type := {
  name : string;
  cycle_timestamp : string;
  gcp_api_client : CrmClient;
  dao : Dao;
  parser : Parser
}.

(** [__init__]: passes [RESOURCE_NAME] to the base constructor. *)
Definition init (cycle_timestamp : string) (crm_client : CrmClient)
    (dao : Dao) (parser : Parser) : pipeline :=
  {| name := RESOURCE_NAME; cycle_timestamp := cycle_timestamp;
     gcp_api_client := crm_client; dao := dao; parser := parser |}.

(** *** [_flatten] *)

(** The body of [for member in members]. *)
Definition flatten_member (self : pipeline) (iam_policy_map : iam_policy_map)
    (binding : binding) (member : string) : generated flattened :=
  match parse_member_info (parser self) member with
  | Raise e => gen_raise e
  | Return (member_type, member_name, member_domain) =>
      let role := get (binding_role binding) "" in
      if startswith role "roles/" then
        let role := replace role "roles/" "" in
        gen_yield {| row_project_number := project_number iam_policy_map;
                     role := role;
                     member_type := member_type;
                     member_name := member_name;
                     member_domain := member_domain |}
      else gen_done
  end.

(** The body of [for binding in bindings]. *)
Definition flatten_binding (self : pipeline) (iam_policy_map : iam_policy_map)
    (binding : binding) : generated flattened :=
  let members := get (members binding) [] in
  gen_for members (flatten_member self iam_policy_map binding).

(** The body of [for iam_policy_map in iam_policy_maps];
    [iam_policy.get] exists only while the value is still a dictionary. *)
Definition flatten_map (self : pipeline) (iam_policy_map : iam_policy_map)
    : generated flattened :=
  match iam_policy iam_policy_map with
  | Str _ => gen_raise (AttributeError "'str' object has no attribute 'get'")
  | PolicyDict iam_policy =>
      let bindings := get (bindings iam_policy) [] in
      gen_for bindings (flatten_binding self iam_policy_map)
  end.

(** The generator body over the dictionaries themselves. *)
Definition flatten_maps (self : pipeline) (maps : list iam_policy_map)
    : generated flattened :=
  gen_for maps (flatten_map self).

(** The generator body over the addresses held by [iam_policy_maps],
    each dictionary read from the heap when the loop reaches it. *)
Definition flatten_refs (self : pipeline) (iam_policy_maps : list loc)
    (h : list iam_policy_map) : generated flattened :=
  gen_for iam_policy_maps (λ l,
    match h !! l with
    | Some iam_policy_map => flatten_map self iam_policy_map
    | None => gen_raise (SystemError "dangling reference")
    end).

(** Calling [_flatten] runs nothing: it returns the generator. *)
Definition _flatten (self : pipeline) (iam_policy_maps : list loc) : iterable :=
  Generator (λ h, let g := flatten_refs self iam_policy_maps h in
                  (FlatRow <$> g.1, g.2)).

(** *** Calls into the collaborators *)

(** Modelled from the spec: [self.dao.load_data(table, cycle, data)],
    the row write of the sink, whose code is not among the sources.  It
    stores the rows of the iterable or fails as the sink decides
    ([load_data_fault]).  The order taken here, the data consumed first
    and an exception of the iterable leaving the call before anything
    reaches the sink, is an assumption; it matters only when the
    iterable itself raises. *)
Definition load_data (self : pipeline) (table cycle : string) (data : iterable)
    : M unit :=
  λ w, match iterate data (heap w) with
       | (_, Some e) => (Raise e, w)
       | (rows, None) =>
           match load_data_fault (dao self) table cycle rows with
           | Some e =>
               (Raise e,
                add_dao_call {| call_table := table; call_cycle := cycle;
                                call_rows := rows; call_error := Some e |} w)
           | None =>
               (Return (),
                add_dao_call {| call_table := table; call_cycle := cycle;
                                call_rows := rows; call_error := None |} w)
           end
       end.

(** [self.gcp_api_client.get_project_iam_policies(name, project_number)] *)
Definition api_get_project_iam_policies (self : pipeline) (project_number : Z)
    : M policy :=
  λ w, (get_project_iam_policies (gcp_api_client self) (name self) project_number,
        add_api_call project_number w).

(** [self.logger.error('Unable to get IAM policies ...', project_number, e)] *)
Definition logger_error (project_number : Z) (e : exn) : M unit :=
  λ w, (Return (), add_logged_error project_number e w).

(** A dictionary display allocates a new dictionary. *)
Definition new_dict (d : iam_policy_map) : M loc :=
  λ w, (Return (length (heap w)), set_heap (heap w ++ [d]) w).

(** [i['iam_policy'] = dumps(i['iam_policy'])] *)
Definition dump_iam_policy (json_dumps : py_value → string) (i : loc) : M unit :=
  λ w, match heap w !! i with
       | Some d =>
           (Return (),
            set_heap (<[i := {| project_number := project_number d;
                                iam_policy := Str (json_dumps (iam_policy d)) |}]>
                        (heap w)) w)
       | None => (Raise (SystemError "dangling reference"), w)
       end.

Section WithJson.

(** [json.dumps], restricted to the values stored under ['iam_policy']. *)
Variable json_dumps : py_value → string.

(** *** [_load] *)
Definition _load (self : pipeline) (iam_policy_maps : list loc)
    (flattened_iam_policies : iterable) : M unit :=
  try_except
    (load_data self (name self) (cycle_timestamp self) flattened_iam_policies ;;;
     for_in iam_policy_maps (λ i _, dump_iam_policy json_dumps i) () ;;;
     load_data self RAW_RESOURCE_NAME (cycle_timestamp self)
       (DictList iam_policy_maps))
    (λ e, match e with
          | CSVFileError _ | MySQLError _ => Some (raise (LoadDataPipelineError e))
          | _ => None
          end).

(** *** [_retrieve] *)

(** The body of [for project_number in project_numbers], with the
    list [iam_policy_maps] built so far. *)
Definition retrieve_one (self : pipeline) (project_number : Z)
    (iam_policy_maps : list loc) : M (list loc) :=
  try_except
    (iam_policy <- api_get_project_iam_policies self project_number ;;
     iam_policy_map <- new_dict {| project_number := project_number;
                                   iam_policy := PolicyDict iam_policy |} ;;
     ret (iam_policy_maps ++ [iam_policy_map]))
    (λ e, match e with
          | ApiExecutionError _ =>
              Some (logger_error project_number e ;;; ret iam_policy_maps)
          | _ => None
          end).

Definition _retrieve (self : pipeline) : M (list loc) :=
  project_numbers <-
    try_except
      (λ w, (select_project_numbers (dao self) (name self) (cycle_timestamp self), w))
      (λ e, match e with
            | MySQLError _ => Some (raise (LoadDataPipelineError e))
            | _ => None
            end) ;;
  for_in project_numbers (retrieve_one self) [].

(** Modelled from the spec: [_get_loaded_count] of the base pipeline
    class, which is not among the sources.  It asks the sink for the
    number of rows stored for this resource and cycle and keeps it for
    reporting; a failure of that query is a storage failure, wrapped
    like the others. *)
Definition _get_loaded_count (self : pipeline) : M unit :=
  λ w, match select_record_count (dao self) (name self) (cycle_timestamp self) with
       | Return n => (Return (), set_count n w)
       | Raise e => (Raise (LoadDataPipelineError e), w)
       end.

(** *** [run] *)
Definition run (self : pipeline) : M unit :=
  iam_policy_maps <- _retrieve self ;;
  let flattened_iam_policies := _flatten self iam_policy_maps in
  _load self iam_policy_maps flattened_iam_policies ;;;
  _get_loaded_count self.

End WithJson.

End LoadProjectsIamPoliciesPipeline.

Export LoadProjectsIamPoliciesPipeline.

(** ** Logging setup: [log_util.py] *)

Module LogUtil.

(** The gflags the module defines, both [False] by default. *)
Record flag_values : Type := {
  use_cloud_logging : bool;
  nouse_cloud_logging : bool
}.

(** The kinds of sink a handler can write to. *)
Inductive handler_class : Type :=
| StreamHandler
| CloudLoggingHandler.

Record handler : Type := {
  handler_kind : handler_class;
  formatter : option string
}.

Inductive level : Type := DEBUG | INFO.

Record logger : Type := {
  handlers : list handler;
  logger_level : option level
}.

(** [logging.StreamHandler()] *)
Definition new_StreamHandler : handler :=
  {| handler_kind := StreamHandler; formatter := None |}.

Definition setFormatter (fmt : string) (h : handler) : handler :=
  {| handler_kind := handler_kind h; formatter := Some fmt |}.

(** [logging.getLogger(name)]: the logger registered under that name,
    a new one without handlers otherwise. *)
Definition getLogger (registry : gmap string logger) (module_name : string) : logger :=
  match registry !! module_name with
  | Some l => l
  | None => {| handlers := []; logger_level := None |}
  end.

Definition addHandler (h : handler) (l : logger) : logger :=
  {| handlers := handlers l ++ [h]; logger_level := logger_level l |}.

Definition setLevel (v : level) (l : logger) : logger :=
  {| handlers := handlers l; logger_level := Some v |}.

(** Truth value of [os.getenv('DEBUG')]. *)
Definition truthy (v : option string) : bool :=
  match v with
  | Some (String _ _) => true
  | _ => false
  end.

(** [LogUtil.get_logger(module_name)].  [is_gce] is the answer of
    [ComputeClient.is_compute_engine_instance()], [getenv_DEBUG] that of
    [os.getenv('DEBUG')]; the result is the configured logger and the
    registry that now holds it. *)
Definition get_logger (FLAGS : flag_values) (is_gce : bool)
    (getenv_DEBUG : option string) (registry : gmap string logger)
    (module_name : string) : logger * gmap string logger :=
  (* Default handler is local logger. *)
  let handler := new_StreamHandler in
  (* Use Cloud Logging if flag is set or if on GCE instance. *)
  let handler := if use_cloud_logging FLAGS || is_gce then handler (* pass *)
                 else handler in
  (* Force local logger. *)
  let handler := if nouse_cloud_logging FLAGS then new_StreamHandler
                 else handler in
  let formatter := "%(asctime)s %(name)-12s %(levelname)-8s %(message)s" in
  let handler := setFormatter formatter handler in
  let logger_instance := getLogger registry module_name in
  let logger_instance := addHandler handler logger_instance in
  let logger_instance :=
    if truthy getenv_DEBUG then setLevel DEBUG logger_instance
    else setLevel INFO logger_instance in
  (logger_instance, <[module_name := logger_instance]> registry).

End LogUtil.

(** ** Vocabulary of the properties *)

(** A Policy Record: a resource id paired with the raw policy fetched for
    it, and the dictionary [_retrieve] builds from it. *)
Definition to_map (r : Z * policy) : iam_policy_map :=
  {| project_number := r.1; iam_policy := PolicyDict r.2 |}.

(** The member parser returns a triple for every string. *)
Definition never_raises (p : Parser) : Prop :=
  ∀ member, ∃ t, parse_member_info p member = Return t.

(** The triple the parser gives for a member it accepts. *)
Definition parsed (p : Parser) (member : string) : string * string * string :=
  match parse_member_info p member with
  | Return t => t
  | Raise _ => ("", "", "")
  end.

(** The role filter: the binding's role starts with ["roles/"]. *)
Definition has_canonical_prefix (b : binding) : bool :=
  startswith (get (binding_role b) "") "roles/".

(** The role with its first six characters, the prefix, cut off. *)
Definition strip_prefix (role : string) : string :=
  String.substring 6 (String.length role - 6) role.

(** The row stored for member [member] of binding [b] of the policy of
    resource [pn]. *)
Definition row_of (p : Parser) (pn : Z) (b : binding) (member : string) : flattened :=
  {| row_project_number := pn;
     role := replace (get (binding_role b) "") "roles/" "";
     member_type := (parsed p member).1.1;
     member_name := (parsed p member).1.2;
     member_domain := (parsed p member).2 |}.

(** The flattened rows as the specification words them: Policy Records in
    input order, for each its bindings in order, for each binding that
    passes the role filter its members in order, one row per member. *)
Definition flatten_binding_spec (p : Parser) (pn : Z) (b : binding) : list flattened :=
  if has_canonical_prefix b then row_of p pn b <$> get (members b) [] else [].

Definition flatten_record_spec (p : Parser) (r : Z * policy) : list flattened :=
  flat_map (flatten_binding_spec p r.1) (get (bindings r.2) []).

Definition flatten_spec (p : Parser) (recs : list (Z * policy)) : list flattened :=
  flat_map (flatten_record_spec p) recs.

(** Number of members of the bindings of a policy that pass the role
    filter: the sum of the [m_i]. *)
Definition kept_members (pol : policy) : nat :=
  sum_list ((λ b, length (get (members b) []))
              <$> List.filter has_canonical_prefix (get (bindings pol) [])).

(** The Policy Records, and the failures, of the fetches for [ids]. *)
Definition fetched (self : pipeline) (ids : list Z) : list (Z * policy) :=
  omap (λ id, match get_project_iam_policies (gcp_api_client self) (name self) id with
              | Return pol => Some (id, pol)
              | Raise _ => None
              end) ids.

Definition fetch_failures (self : pipeline) (ids : list Z) : list (Z * exn) :=
  omap (λ id, match get_project_iam_policies (gcp_api_client self) (name self) id with
              | Return _ => None
              | Raise e => Some (id, e)
              end) ids.

(** Every fetch for [ids] either succeeds or raises [ApiExecutionError]. *)
Definition api_errors_only (self : pipeline) (ids : list Z) : Prop :=
  ∀ id, id ∈ ids →
    match get_project_iam_policies (gcp_api_client self) (name self) id with
    | Return _ => True
    | Raise (ApiExecutionError _) => True
    | Raise _ => False
    end.

(** A storage failure of [load_data]: one of the two classes [_load] catches. *)
Definition is_storage_error (e : exn) : Prop :=
  match e with
  | CSVFileError _ | MySQLError _ => True
  | _ => False
  end.

(** A dictionary after [_load] has serialized its policy. *)
Definition dumped (json_dumps : py_value → string) (m : iam_policy_map) : iam_policy_map :=
  {| project_number := project_number m;
     iam_policy := Str (json_dumps (iam_policy m)) |}.

(** The rows of the successful [load_data] calls on [table]. *)
Definition rows_loaded (table : string) (calls : list dao_call) : list row :=
  flat_map (λ c, if String.eqb (call_table c) table
                 then match call_error c with None => call_rows c | Some _ => [] end
                 else []) calls.

(** Resource ids of the raw rows, and of the flattened rows, among [rows]. *)
Definition raw_ids (rows : list row) : list Z :=
  omap (λ r, match r with MapRow m => Some (project_number m) | FlatRow _ => None end) rows.

Definition flat_ids (rows : list row) : list Z :=
  omap (λ r, match r with FlatRow f => Some (row_project_number f) | MapRow _ => None end) rows.

(** The world once [_retrieve] has returned for selector answer [ids]. *)
Definition retrieved (self : pipeline) (ids : list Z) (w : world) : world :=
  {| heap := heap w ++ (to_map <$> fetched self ids);
     api_calls := api_calls w ++ ids;
     logged_errors := logged_errors w ++ fetch_failures self ids;
     dao_calls := dao_calls w;
     count := count w |}.

(** The two [load_data] calls of a run, with their outcome. *)
Definition flat_call (self : pipeline) (ids : list Z) (err : option exn) : dao_call :=
  {| call_table := name self; call_cycle := cycle_timestamp self;
     call_rows := FlatRow <$> flatten_spec (parser self) (fetched self ids);
     call_error := err |}.

Definition raw_call (json_dumps : py_value → string) (self : pipeline)
    (ids : list Z) (err : option exn) : dao_call :=
  {| call_table := RAW_RESOURCE_NAME; call_cycle := cycle_timestamp self;
     call_rows := MapRow <$> (dumped json_dumps <$> (to_map <$> fetched self ids));
     call_error := err |}.

(** What the [except] clause of [_load] turns an exception into. *)
Definition load_wrap (e : exn) : exn :=
  match e with
  | CSVFileError _ | MySQLError _ => LoadDataPipelineError e
  | _ => e
  end.

(** Addresses of the dictionaries [_retrieve] allocates in [w] for [ids]. *)
Definition retrieved_refs (self : pipeline) (ids : list Z) (w : world) : list loc :=
  seq (length (heap w)) (length (fetched self ids)).

(** The heap once [_load] has serialized the policies retrieved for [ids]. *)
Definition dumped_heap (json_dumps : py_value → string) (self : pipeline)
    (ids : list Z) (w : world) : list iam_policy_map :=
  heap w ++ (dumped json_dumps <$> (to_map <$> fetched self ids)).

(** Outcome of the load stage after a retrieve stage that returned for
    [ids], by the faults of the sink on the two writes. *)
Definition load_outcome (json_dumps : py_value → string) (self : pipeline)
    (ids : list Z) (w : world) : outcome () * world :=
  let w1 := retrieved self ids w in
  match load_data_fault (dao self) (name self) (cycle_timestamp self)
          (call_rows (flat_call self ids None)) with
  | Some e => (Raise (load_wrap e), add_dao_call (flat_call self ids (Some e)) w1)
  | None =>
      let w2 := set_heap (dumped_heap json_dumps self ids w)
                  (add_dao_call (flat_call self ids None) w1) in
      match load_data_fault (dao self) RAW_RESOURCE_NAME (cycle_timestamp self)
              (call_rows (raw_call json_dumps self ids None)) with
      | Some e =>
          (Raise (load_wrap e), add_dao_call (raw_call json_dumps self ids (Some e)) w2)
      | None => (Return (), add_dao_call (raw_call json_dumps self ids None) w2)
      end
  end.

(** The dictionaries at the addresses [refs], in order. *)
Definition deref (h : list iam_policy_map) (refs : list loc) : list iam_policy_map :=
  omap (λ l, h !! l) refs.

(** The rows handed to [load_data] for [table], stored or not. *)
Definition rows_offered (table : string) (calls : list dao_call) : list row :=
  flat_map (λ c, if String.eqb (call_table c) table then call_rows c else []) calls.

(** The invariant of the data model for a run that took the world from
    [w] to [w']: the resource id of every flattened row the generator of
    [_flatten] produced in the run is the resource id of a row stored in
    the raw table in that run. *)
Definition flattened_ids_backed (self : pipeline) (w w' : world) : Prop :=
  let calls := drop (length (dao_calls w)) (dao_calls w') in
  ∀ id, id ∈ flat_ids (rows_offered (name self) calls) →
        id ∈ raw_ids (rows_loaded RAW_RESOURCE_NAME calls).

(** ** Sample collaborators and inputs *)

Module Samples.

(** Split at the first occurrence of [sep]. *)
Fixpoint split_at (sep : ascii) (s : string) : option (string * string) :=
  match s with
  | EmptyString => None
  | String c rest =>
      if Ascii.eqb c sep then Some (EmptyString, rest)
      else match split_at sep rest with
           | Some (a, b) => Some (String c a, b)
           | None => None
           end
  end.

(** A member parser that accepts every string. *)
Definition lenient_parser : Parser :=
  {| parse_member_info := λ member,
       match split_at ":" member with
       | None => Return (member, "", "")
       | Some (member_type, email) =>
           match split_at "@" email with
           | Some (member_name, member_domain) =>
               Return (member_type, member_name, member_domain)
           | None => Return (member_type, "", email)
           end
       end |}.

(** A member parser that rejects a string without a colon. *)
Definition strict_parser : Parser :=
  {| parse_member_info := λ member,
       match split_at ":" member with
       | None => Raise (ValueError "need more than 1 value to unpack")
       | Some (member_type, email) =>
           match split_at "@" email with
           | Some (member_name, member_domain) =>
               Return (member_type, member_name, member_domain)
           | None => Return (member_type, "", email)
           end
       end |}.

(** A stand-in for [json.dumps]: tags the value it was given. *)
Definition sample_dumps (v : py_value) : string :=
  match v with
  | PolicyDict pol =>
      "{bindings: " +:+
      String.concat ", "
        ((λ b, "{role: " +:+ get (binding_role b) "" +:+ ", members: [" +:+
               String.concat ", " (get (members b) []) +:+ "]}")
           <$> get (bindings pol) []) +:+ "}"
  | Str s => "'" +:+ s +:+ "'"
  end.

Definition owner_policy : policy :=
  {| bindings := Some [ {| binding_role := Some "roles/owner";
                           members := Some ["user:a@x.com"] |} ] |}.

Definition admin_policy : policy :=
  {| bindings := Some [ {| binding_role := Some "admin";
                           members := Some ["allUsers"] |} ] |}.

Definition nested_role_policy : policy :=
  {| bindings := Some [ {| binding_role := Some "roles/a/roles/b";
                           members := Some ["user:a@x.com"] |} ] |}.

(** The Policy Source of scenario A: 111 has a policy, 222 cannot be fetched. *)
Definition client_A : CrmClient :=
  {| get_project_iam_policies := λ _ project_number,
       if (project_number =? 111)%Z then Return owner_policy
       else Raise (ApiExecutionError "HttpError 403") |}.

(** A sink that stores everything. *)
Definition dao_ok : Dao :=
  {| select_project_numbers := λ _ _, Return [111; 222]%Z;
     load_data_fault := λ _ _ _, None;
     select_record_count := λ _ _, Return 1%Z |}.

(** A sink whose selector query fails. *)
Definition dao_no_select : Dao :=
  {| select_project_numbers := λ _ _, Raise (MySQLError "server has gone away");
     load_data_fault := λ _ _ _, None;
     select_record_count := λ _ _, Return 0%Z |}.

(** A sink that stores the flattened rows and fails on the raw table. *)
Definition dao_raw_fails : Dao :=
  {| select_project_numbers := λ _ _, Return [111; 222]%Z;
     load_data_fault := λ table _ _,
       if String.eqb table RAW_RESOURCE_NAME
       then Some (MySQLError "LOAD DATA failed") else None;
     select_record_count := λ _ _, Return 1%Z |}.

Definition cycle : string := "20170301T000000Z".

Definition pipeline_A : pipeline := init cycle client_A dao_ok lenient_parser.
Definition pipeline_B : pipeline := init cycle client_A dao_no_select lenient_parser.
Definition pipeline_raw_fails : pipeline :=
  init cycle client_A dao_raw_fails lenient_parser.

Definition empty_world : world :=
  {| heap := []; api_calls := []; logged_errors := []; dao_calls := [];
     count := None |}.

End Samples.

(** ** Vocabulary of the further properties *)

(** [w'] keeps what [w] held: the dictionaries of [w] are unchanged at
    their addresses, and the calls and log entries of [w] are the first
    ones of [w']. *)
Definition world_extends (w w' : world) : Prop :=
  take (length (heap w)) (heap w') = heap w
  ∧ (∃ l, api_calls w' = api_calls w ++ l)
  ∧ (∃ l, logged_errors w' = logged_errors w ++ l)
  ∧ (∃ l, dao_calls w' = dao_calls w ++ l).

(** [w'] differs from [w] at most in dictionaries at addresses from [n] on. *)
Definition heap_frame (n : nat) (w w' : world) : Prop :=
  take n (heap w') = take n (heap w)
  ∧ length (heap w') = length (heap w)
  ∧ api_calls w' = api_calls w
  ∧ logged_errors w' = logged_errors w
  ∧ dao_calls w' = dao_calls w
  ∧ count w' = count w.

(** The [load_data] calls one run may add: none, the flattened write
    alone, or the flattened write, stored, followed by the raw write. *)
Definition load_calls_shape (self : pipeline) (calls : list dao_call) : Prop :=
  calls = []
  ∨ (∃ c, calls = [c] ∧ call_table c = name self)
  ∨ (∃ c1 c2, calls = [c1; c2] ∧ call_table c1 = name self ∧ call_error c1 = None
              ∧ call_table c2 = RAW_RESOURCE_NAME).

(** ** Further sample collaborators *)

Module MoreSamples.

(** A sink whose selector query fails outside the MySQL error class. *)
Definition dao_select_other : Dao :=
  {| select_project_numbers := λ _ _, Raise (ValueError "bad cycle timestamp");
     load_data_fault := λ _ _ _, None;
     select_record_count := λ _ _, Return 0%Z |}.

(** A sink that selects three projects and stores everything. *)
Definition dao_three : Dao :=
  {| select_project_numbers := λ _ _, Return [111; 222; 333]%Z;
     load_data_fault := λ _ _ _, None;
     select_record_count := λ _ _, Return 1%Z |}.

(** A sink that selects no project. *)
Definition dao_none : Dao :=
  {| select_project_numbers := λ _ _, Return [];
     load_data_fault := λ _ _ _, None;
     select_record_count := λ _ _, Return 0%Z |}.

(** A sink that fails on the flattened table. *)
Definition dao_flat_fails : Dao :=
  {| select_project_numbers := λ _ _, Return [111; 222]%Z;
     load_data_fault := λ table _ _,
       if String.eqb table RESOURCE_NAME
       then Some (CSVFileError "disk full") else None;
     select_record_count := λ _ _, Return 0%Z |}.

(** A sink that fails on the flattened table outside the two classes
    [_load] catches. *)
Definition dao_flat_other : Dao :=
  {| select_project_numbers := λ _ _, Return [111; 222]%Z;
     load_data_fault := λ table _ _,
       if String.eqb table RESOURCE_NAME
       then Some (ValueError "bad row") else None;
     select_record_count := λ _ _, Return 0%Z |}.

(** A Policy Source that answers for 111 and fails for every other id
    outside the API error class. *)
Definition client_broken : CrmClient :=
  {| get_project_iam_policies := λ _ project_number,
       if (project_number =? 111)%Z then Return Samples.owner_policy
       else Raise (ValueError "No JSON object could be decoded") |}.

(** A Policy Source whose policies bind a member without a colon. *)
Definition client_all_users : CrmClient :=
  {| get_project_iam_policies := λ _ _, Return Samples.admin_policy |}.

Definition pipeline_select_other : pipeline :=
  init Samples.cycle Samples.client_A dao_select_other Samples.lenient_parser.
Definition pipeline_broken : pipeline :=
  init Samples.cycle client_broken dao_three Samples.lenient_parser.
Definition pipeline_none : pipeline :=
  init Samples.cycle Samples.client_A dao_none Samples.strict_parser.
Definition pipeline_flat_fails : pipeline :=
  init Samples.cycle Samples.client_A dao_flat_fails Samples.lenient_parser.
Definition pipeline_flat_other : pipeline :=
  init Samples.cycle Samples.client_A dao_flat_other Samples.lenient_parser.
Definition pipeline_strict : pipeline :=
  init Samples.cycle client_all_users Samples.dao_ok Samples.strict_parser.

End MoreSamples.

(** ** Generators and the flatten stage *)

Section Flatten.

Variable self : pipeline.

Lemma gen_for_ok {A B : Type} (l : list A) (body : A → generated B) (f : A → list B) :
  (∀ x, x ∈ l → body x = (f x, None)) →
  gen_for l body = (flat_map f l, None).
Proof.
  induction l as [|x l IH]; intros Hbody; [reflexivity|].
  cbn [gen_for flat_map]. rewrite (Hbody x) by apply list_elem_of_here.
  rewrite IH by (intros y Hy; apply Hbody; by apply list_elem_of_further).
  reflexivity.
Qed.

(** Once an iteration raises, the loop stops with what came before. *)
Lemma gen_for_raise {A B : Type} (l1 l2 : list A) (x : A)
    (body : A → generated B) (f : A → list B) (ys : list B) (e : exn) :
  (∀ y, y ∈ l1 → body y = (f y, None)) →
  body x = (ys, Some e) →
  gen_for (l1 ++ x :: l2) body = (flat_map f l1 ++ ys, Some e).
Proof.
  induction l1 as [|y l1 IH]; intros Hbody Hx.
  - cbn. rewrite Hx. reflexivity.
  - cbn [app gen_for flat_map]. rewrite (Hbody y) by apply list_elem_of_here.
    rewrite IH; [|intros z Hz; apply Hbody; by apply list_elem_of_further|done].
    cbn. by rewrite app_assoc.
Qed.

Lemma flatten_member_ok (m : iam_policy_map) (b : binding) (member : string) :
  never_raises (parser self) →
  flatten_member self m b member =
    (if has_canonical_prefix b
     then [row_of (parser self) (project_number m) b member] else [], None).
Proof.
  intros Hp. unfold flatten_member, row_of, parsed, has_canonical_prefix.
  destruct (Hp member) as [[[ty nm] dom] ->].
  by destruct (startswith _ _).
Qed.

Lemma flatten_binding_ok (m : iam_policy_map) (b : binding) :
  never_raises (parser self) →
  flatten_binding self m b =
    (flatten_binding_spec (parser self) (project_number m) b, None).
Proof.
  intros Hp. unfold flatten_binding, flatten_binding_spec.
  rewrite (gen_for_ok _ _
    (λ member, if has_canonical_prefix b
               then [row_of (parser self) (project_number m) b member] else []))
    by (intros; by apply flatten_member_ok).
  f_equal. destruct (has_canonical_prefix b).
  - induction (get (members b) []) as [|x l IH]; [done|]. cbn. by rewrite IH.
  - induction (get (members b) []) as [|x l IH]; [done|]. by cbn.
Qed.

Lemma flatten_map_ok (r : Z * policy) :
  never_raises (parser self) →
  flatten_map self (to_map r) = (flatten_record_spec (parser self) r, None).
Proof.
  intros Hp. unfold flatten_map, flatten_record_spec. cbn.
  apply gen_for_ok. intros b _. by apply (flatten_binding_ok (to_map r)).
Qed.

(** The generator body computes the rows of the specification. *)
Lemma flatten_maps_spec (recs : list (Z * policy)) :
  never_raises (parser self) →
  flatten_maps self (to_map <$> recs) = (flatten_spec (parser self) recs, None).
Proof.
  intros Hp. unfold flatten_maps, flatten_spec.
  induction recs as [|r recs IH]; [done|].
  rewrite fmap_cons. cbn [gen_for flat_map].
  rewrite flatten_map_ok by done. rewrite IH. reflexivity.
Qed.

(** Reading the dictionaries through their addresses. *)
Lemma gen_for_refs {B : Type} (h0 maps h1 : list iam_policy_map)
    (body : iam_policy_map → generated B) (e : exn) :
  gen_for (seq (length h0) (length maps))
    (λ l, match (h0 ++ maps ++ h1) !! l with
          | Some m => body m
          | None => gen_raise e
          end)
  = gen_for maps body.
Proof.
  revert h0. induction maps as [|m maps IH]; intros h0; [done|].
  cbn [length seq gen_for].
  rewrite lookup_app_r by lia. rewrite Nat.sub_diag. cbn [lookup list_lookup app].
  f_equal.
  specialize (IH (h0 ++ [m])). rewrite length_app in IH. cbn in IH.
  rewrite Nat.add_1_r in IH. rewrite <- IH.
  by rewrite <- app_assoc.
Qed.

Lemma flatten_refs_heap (h0 maps h1 : list iam_policy_map) :
  flatten_refs self (seq (length h0) (length maps)) (h0 ++ maps ++ h1)
  = flatten_maps self maps.
Proof. apply gen_for_refs. Qed.

Lemma flat_map_length_sum {A B : Type} (f : A → list B) (l : list A) :
  length (flat_map f l) = sum_list ((λ x, length (f x)) <$> l).
Proof.
  induction l as [|x l IH]; [done|]. cbn. rewrite length_app. by rewrite IH.
Qed.

Lemma flatten_record_spec_length (p : Parser) (r : Z * policy) :
  length (flatten_record_spec p r) = kept_members r.2.
Proof.
  unfold flatten_record_spec, kept_members.
  induction (get (bindings r.2) []) as [|b bs IH]; [done|].
  cbn [flat_map List.filter]. rewrite length_app, IH.
  unfold flatten_binding_spec at 1.
  destruct (has_canonical_prefix b); cbn; [|done].
  by rewrite length_fmap.
Qed.

Lemma flatten_record_spec_id (p : Parser) (r : Z * policy) :
  Forall (λ x, row_project_number x = r.1) (flatten_record_spec p r).
Proof.
  unfold flatten_record_spec.
  induction (get (bindings r.2) []) as [|b bs IH]; [constructor|].
  cbn [flat_map]. apply Forall_app. split; [|done].
  unfold flatten_binding_spec. destruct (has_canonical_prefix b); [|constructor].
  apply Forall_fmap. by apply Forall_true.
Qed.

End Flatten.

(** ** The retrieve and load stages *)

Section Stages.

Variable json_dumps : py_value → string.
Variable self : pipeline.

Lemma fetched_cons_ok (id : Z) (ids : list Z) (pol : policy) :
  get_project_iam_policies (gcp_api_client self) (name self) id = Return pol →
  fetched self (id :: ids) = (id, pol) :: fetched self ids
  ∧ fetch_failures self (id :: ids) = fetch_failures self ids.
Proof. intros H. unfold fetched, fetch_failures. cbn. by rewrite H. Qed.

Lemma fetched_cons_fail (id : Z) (ids : list Z) (e : exn) :
  get_project_iam_policies (gcp_api_client self) (name self) id = Raise e →
  fetched self (id :: ids) = fetched self ids
  ∧ fetch_failures self (id :: ids) = (id, e) :: fetch_failures self ids.
Proof. intros H. unfold fetched, fetch_failures. cbn. by rewrite H. Qed.

(** The loop of [_retrieve]: one call per id, a dictionary per success,
    a log entry per failure. *)
Lemma retrieve_loop (ids : list Z) :
  api_errors_only self ids →
  ∀ (acc : list loc) (w : world),
    for_in ids (retrieve_one self) acc w
    = (Return (acc ++ retrieved_refs self ids w), retrieved self ids w).
Proof.
  induction ids as [|id ids IH]; intros Hapi acc w.
  - cbn. unfold ret, retrieved_refs, retrieved. cbn.
    rewrite !app_nil_r. by destruct w.
  - assert (Hrest : api_errors_only self ids).
    { intros x Hx. apply Hapi. by apply list_elem_of_further. }
    specialize (IH Hrest).
    pose proof (Hapi id (list_elem_of_here _ _)) as Hid.
    cbn [for_in]. unfold bind at 1. unfold retrieve_one at 1.
    unfold try_except at 1.
    unfold bind at 1. unfold api_get_project_iam_policies at 1.
    destruct (get_project_iam_policies (gcp_api_client self) (name self) id)
      as [pol|e] eqn:Hfetch.
    + destruct (fetched_cons_ok id ids pol Hfetch) as [Hf Hl].
      cbn -[fetched fetch_failures]. rewrite IH.
      unfold retrieved_refs, retrieved. cbn -[fetched fetch_failures].
      rewrite Hf, Hl. cbn -[fetched fetch_failures]. rewrite length_app.
      cbn -[fetched fetch_failures].
      rewrite <- !app_assoc. cbn -[fetched fetch_failures].
      rewrite Nat.add_1_r. reflexivity.
    + destruct e; try contradiction.
      destruct (fetched_cons_fail id ids _ Hfetch) as [Hf Hl].
      cbn -[fetched fetch_failures]. rewrite IH.
      unfold retrieved_refs, retrieved. cbn -[fetched fetch_failures].
      rewrite Hf, Hl. rewrite <- !app_assoc. reflexivity.
Qed.

Lemma retrieve_ok (ids : list Z) (w : world) :
  select_project_numbers (dao self) (name self) (cycle_timestamp self) = Return ids →
  api_errors_only self ids →
  _retrieve self w = (Return (retrieved_refs self ids w), retrieved self ids w).
Proof.
  intros Hsel Hapi. unfold _retrieve, bind, try_except. rewrite Hsel.
  by rewrite retrieve_loop.
Qed.

Lemma retrieve_select_fails (msg : string) (w : world) :
  select_project_numbers (dao self) (name self) (cycle_timestamp self)
    = Raise (MySQLError msg) →
  _retrieve self w = (Raise (LoadDataPipelineError (MySQLError msg)), w).
Proof. intros Hsel. unfold _retrieve, bind, try_except. by rewrite Hsel. Qed.

(** The loop of [_load] overwrites the policy of each dictionary. *)
Lemma dump_loop (maps h1 : list iam_policy_map) :
  ∀ (h0 : list iam_policy_map) (w : world),
    heap w = h0 ++ maps ++ h1 →
    for_in (seq (length h0) (length maps))
      (λ i _, dump_iam_policy json_dumps i) () w
    = (Return (), set_heap (h0 ++ (dumped json_dumps <$> maps) ++ h1) w).
Proof.
  induction maps as [|m maps IH]; intros h0 w Hw.
  - cbn in *. unfold ret, set_heap. rewrite <- Hw. by destruct w.
  - cbn [length seq for_in]. unfold bind, dump_iam_policy at 1.
    rewrite Hw. rewrite lookup_app_r by lia. rewrite Nat.sub_diag.
    cbn [app lookup list_lookup].
    rewrite insert_app_r_alt by lia. rewrite Nat.sub_diag. cbn [insert list_insert].
    specialize (IH (h0 ++ [dumped json_dumps m])
                   (set_heap (h0 ++ dumped json_dumps m :: maps ++ h1) w)).
    rewrite length_app in IH. cbn [length] in IH. rewrite Nat.add_1_r in IH.
    fold (dumped json_dumps m). rewrite IH by (cbn; by rewrite <- app_assoc).
    unfold set_heap. cbn. by rewrite <- app_assoc.
Qed.

Lemma iterate_dict_list (h0 maps h1 : list iam_policy_map) :
  iterate (DictList (seq (length h0) (length maps))) (h0 ++ maps ++ h1)
  = (MapRow <$> maps, None).
Proof.
  unfold iterate.
  rewrite (gen_for_refs h0 maps h1 (λ m, gen_yield (MapRow m))).
  rewrite (gen_for_ok _ _ (λ m, [MapRow m])) by done.
  f_equal.
Qed.

(** The load stage, run on what the retrieve stage left. *)
Lemma load_after_retrieve (ids : list Z) (w : world) :
  never_raises (parser self) →
  _load json_dumps self (retrieved_refs self ids w)
    (_flatten self (retrieved_refs self ids w)) (retrieved self ids w)
  = load_outcome json_dumps self ids w.
Proof.
  intros Hp. unfold _load, load_outcome, try_except, bind.
  unfold load_data at 1. cbn [iterate _flatten].
  replace (heap (retrieved self ids w))
    with (heap w ++ (to_map <$> fetched self ids) ++ []) by (by rewrite app_nil_r).
  unfold retrieved_refs. rewrite <- (length_fmap to_map (fetched self ids)).
  rewrite flatten_refs_heap, flatten_maps_spec by done.
  cbn [fst snd flat_call call_rows].
  destruct (load_data_fault (dao self) (name self) (cycle_timestamp self) _)
    as [e|] eqn:Hflat.
  { unfold load_wrap. destruct e; reflexivity. }
  rewrite (dump_loop (to_map <$> fetched self ids) [] (heap w))
    by (cbn; by rewrite app_nil_r).
  unfold load_data. cbn [heap set_heap].
  rewrite <- (length_fmap (dumped json_dumps) (to_map <$> fetched self ids)).
  rewrite iterate_dict_list. cbn [raw_call call_rows].
  unfold dumped_heap. rewrite !app_nil_r.
  destruct (load_data_fault (dao self) RAW_RESOURCE_NAME (cycle_timestamp self) _)
    as [e|] eqn:Hraw.
  { unfold load_wrap. destruct e; reflexivity. }
  reflexivity.
Qed.

(** A whole run, by the stage it ends in. *)
Lemma run_after_select (ids : list Z) (w : world) :
  select_project_numbers (dao self) (name self) (cycle_timestamp self) = Return ids →
  api_errors_only self ids →
  never_raises (parser self) →
  run json_dumps self w =
    match load_outcome json_dumps self ids w with
    | (Return _, w') => _get_loaded_count self w'
    | (Raise e, w') => (Raise e, w')
    end.
Proof.
  intros Hsel Hapi Hp. unfold run. unfold bind at 1.
  rewrite (retrieve_ok ids) by done. unfold bind.
  by rewrite load_after_retrieve.
Qed.

End Stages.


(** ** Properties of the flatten stage *)

Lemma lenient_parser_never_raises : never_raises Samples.lenient_parser.
Proof.
  intros member. cbn.
  destruct (Samples.split_at ":" member) as [[ty email]|]; [|by eexists].
  destruct (Samples.split_at "@" email) as [[nm dom]|]; by eexists.
Qed.

Lemma deref_seq (h0 maps h1 : list iam_policy_map) :
  deref (h0 ++ maps ++ h1) (seq (length h0) (length maps)) = maps.
Proof.
  revert h0. induction maps as [|m maps IH]; intros h0; [done|].
  unfold deref in *. cbn [length seq omap list_omap].
  rewrite lookup_app_r by lia. rewrite Nat.sub_diag. cbn [lookup list_lookup app].
  f_equal. specialize (IH (h0 ++ [m])). rewrite length_app in IH. cbn in IH.
  rewrite Nat.add_1_r in IH. rewrite <- IH at 2. by rewrite <- app_assoc.
Qed.

(** Consuming the generator of [_flatten] over the addresses of
    materialized Policy Records gives the rows of the specification. *)
Lemma iterate_flatten (self : pipeline) (recs : list (Z * policy))
    (h0 h1 : list iam_policy_map) :
  never_raises (parser self) →
  iterate (_flatten self (seq (length h0) (length recs)))
    (h0 ++ (to_map <$> recs) ++ h1)
  = (FlatRow <$> flatten_spec (parser self) recs, None).
Proof.
  intros Hp. cbn [iterate _flatten].
  rewrite <- (length_fmap to_map recs).
  by rewrite flatten_refs_heap, flatten_maps_spec.
Qed.

(** C1. For every collection of Policy Records, consuming [_flatten]
    yields, record after record, as many rows as the bindings of that
    record that pass the role filter have members, each row carrying the
    project_number of that record; in all, the sum of those member counts. *)
Theorem flatten_count_and_origin (self : pipeline) (recs : list (Z * policy))
    (h0 h1 : list iam_policy_map) :
  never_raises (parser self) →
  ∃ outs : list (list flattened),
    iterate (_flatten self (seq (length h0) (length recs)))
      (h0 ++ (to_map <$> recs) ++ h1)
    = (FlatRow <$> concat outs, None)
    ∧ Forall2 (λ r out, length out = kept_members r.2
                        ∧ Forall (λ x, row_project_number x = r.1) out)
        recs outs
    ∧ length (concat outs) = sum_list ((λ r, kept_members r.2) <$> recs).
Proof.
  intros Hp. exists (flatten_record_spec (parser self) <$> recs).
  split; [|split].
  - rewrite iterate_flatten by done. unfold flatten_spec.
    by rewrite flat_map_concat_map.
  - induction recs as [|r recs IH]; [constructor|].
    rewrite fmap_cons. constructor; [|done].
    split; [apply flatten_record_spec_length|apply flatten_record_spec_id].
  - induction recs as [|r recs IH]; [done|].
    rewrite !fmap_cons. cbn [concat sum_list sum_list_with].
    rewrite length_app, IH. by rewrite flatten_record_spec_length.
Qed.

Lemma flatten_count_and_origin_witness :
  never_raises (parser Samples.pipeline_A)
  ∧ ∃ outs : list (list flattened),
      iterate (_flatten Samples.pipeline_A [0; 1])
        [to_map (111%Z, Samples.owner_policy); to_map (222%Z, Samples.admin_policy)]
      = (FlatRow <$> concat outs, None)
      ∧ Forall2 (λ r out, length out = kept_members r.2
                          ∧ Forall (λ x, row_project_number x = r.1) out)
          [(111%Z, Samples.owner_policy); (222%Z, Samples.admin_policy)] outs
      ∧ length (concat outs)
        = sum_list ((λ r, kept_members r.2)
                      <$> [(111%Z, Samples.owner_policy); (222%Z, Samples.admin_policy)]).
Proof.
  split; [exact lenient_parser_never_raises|].
  exact (flatten_count_and_origin Samples.pipeline_A
           [(111%Z, Samples.owner_policy); (222%Z, Samples.admin_policy)] [] []
           lenient_parser_never_raises).
Defined.

(** C7. For every input set of Policy Records, the rows [_flatten]
    produces are those of the specification's enumeration: records in
    input order, within a record its bindings in order, within a binding
    its members in order; nothing is reordered and nothing is removed as
    a duplicate, so the rows of a concatenated input are the rows of its
    parts, one after the other. *)
Theorem flatten_keeps_input_order (self : pipeline) (recs1 recs2 : list (Z * policy))
    (h0 h1 : list iam_policy_map) :
  never_raises (parser self) →
  iterate (_flatten self (seq (length h0) (length (recs1 ++ recs2))))
    (h0 ++ (to_map <$> recs1 ++ recs2) ++ h1)
  = (FlatRow <$> flatten_spec (parser self) recs1 ++ flatten_spec (parser self) recs2,
     None)
  ∧ (∀ r, flatten_spec (parser self) [r]
          = flat_map (λ b, if has_canonical_prefix b
                           then row_of (parser self) r.1 b <$> get (members b) []
                           else [])
              (get (bindings r.2) [])).
Proof.
  intros Hp. split.
  - rewrite iterate_flatten by done. unfold flatten_spec.
    by rewrite flat_map_app.
  - intros r. unfold flatten_spec, flatten_record_spec. cbn [flat_map].
    by rewrite app_nil_r.
Qed.

Lemma flatten_keeps_input_order_witness :
  never_raises (parser Samples.pipeline_A)
  ∧ iterate (_flatten Samples.pipeline_A [0; 1; 2])
      [to_map (222%Z, Samples.owner_policy); to_map (111%Z, Samples.nested_role_policy);
       to_map (222%Z, Samples.owner_policy)]
    = (FlatRow <$>
         [ {| row_project_number := 222; role := "owner"; member_type := "user";
              member_name := "a"; member_domain := "x.com" |};
           {| row_project_number := 111; role := "a/b"; member_type := "user";
              member_name := "a"; member_domain := "x.com" |};
           {| row_project_number := 222; role := "owner"; member_type := "user";
              member_name := "a"; member_domain := "x.com" |} ],
       None).
Proof.
  split; [exact lenient_parser_never_raises|].
  exact (proj1 (flatten_keeps_input_order Samples.pipeline_A
                  [(222%Z, Samples.owner_policy)]
                  [(111%Z, Samples.nested_role_policy); (222%Z, Samples.owner_policy)]
                  [] [] lenient_parser_never_raises)).
Defined.

(** When the loop of [_retrieve] returns, every fetch either succeeded
    or raised [ApiExecutionError]. *)
Lemma retrieve_loop_returns (self : pipeline) (ids : list Z) :
  ∀ (acc : list loc) (w : world) (refs : list loc) (w' : world),
    for_in ids (retrieve_one self) acc w = (Return refs, w') →
    api_errors_only self ids.
Proof.
  induction ids as [|id ids IH]; intros acc w refs w' H x Hx.
  - by apply elem_of_nil in Hx.
  - cbn [for_in] in H. unfold bind at 1 in H. unfold retrieve_one at 1 in H.
    unfold try_except at 1 in H. unfold bind at 1 in H.
    unfold api_get_project_iam_policies at 1 in H.
    destruct (get_project_iam_policies (gcp_api_client self) (name self) id)
      as [pol|e] eqn:Hfetch.
    + cbn in H. apply elem_of_cons in Hx as [->|Hx]; [by rewrite Hfetch|].
      by eapply IH.
    + destruct e; cbn in H; try discriminate.
      apply elem_of_cons in Hx as [->|Hx]; [by rewrite Hfetch|].
      by eapply IH.
Qed.

Lemma retrieve_returns (self : pipeline) (w0 w : world) (refs : list loc) :
  _retrieve self w0 = (Return refs, w) →
  ∃ ids, select_project_numbers (dao self) (name self) (cycle_timestamp self)
           = Return ids
         ∧ api_errors_only self ids
         ∧ refs = retrieved_refs self ids w0
         ∧ w = retrieved self ids w0.
Proof.
  intros H. unfold _retrieve in H. unfold bind at 1 in H. unfold try_except at 1 in H.
  destruct (select_project_numbers (dao self) (name self) (cycle_timestamp self))
    as [ids|e] eqn:Hsel.
  - exists ids. pose proof (retrieve_loop_returns _ _ _ _ _ _ H) as Hapi.
    rewrite retrieve_loop in H by done. cbn in H.
    split; [done|]. split; [done|]. by inversion H.
  - destruct e; cbn in H; discriminate.
Qed.

(** C8, as the code has it. Over the Policy Records [_retrieve] has
    materialized, consuming the generator of [_flatten] to its end
    raises nothing, whatever the bindings hold, provided the member
    parser returns for every string; the bindings that fail the role
    filter are parsed as well and give no row. *)
Theorem flatten_cannot_fail (self : pipeline) (w0 w : world) (refs : list loc) :
  never_raises (parser self) →
  _retrieve self w0 = (Return refs, w) →
  ∃ rows : list flattened,
    iterate (_flatten self refs) (heap w) = (FlatRow <$> rows, None)
    ∧ length rows
      = sum_list ((λ m, match iam_policy m with
                        | PolicyDict pol => kept_members pol
                        | Str _ => 0
                        end) <$> deref (heap w) refs).
Proof.
  intros Hp Hret.
  destruct (retrieve_returns _ _ _ _ Hret) as (ids & Hsel & Hapi & -> & ->).
  exists (flatten_spec (parser self) (fetched self ids)).
  unfold retrieved_refs, retrieved. cbn [heap].
  replace (heap w0 ++ (to_map <$> fetched self ids))
    with (heap w0 ++ (to_map <$> fetched self ids) ++ []) by (by rewrite app_nil_r).
  split; [by apply iterate_flatten|].
  rewrite <- (length_fmap to_map (fetched self ids)). rewrite deref_seq.
  unfold flatten_spec.
  induction (fetched self ids) as [|r recs IH]; [done|].
  rewrite !fmap_cons. cbn [flat_map sum_list sum_list_with to_map iam_policy].
  rewrite length_app, IH. by rewrite flatten_record_spec_length.
Qed.

Lemma flatten_cannot_fail_witness :
  never_raises (parser Samples.pipeline_A)
  ∧ _retrieve Samples.pipeline_A Samples.empty_world
    = (Return [0], retrieved Samples.pipeline_A [111; 222]%Z Samples.empty_world)
  ∧ ∃ rows : list flattened,
      iterate (_flatten Samples.pipeline_A [0])
        (heap (retrieved Samples.pipeline_A [111; 222]%Z Samples.empty_world))
      = (FlatRow <$> rows, None)
      ∧ length rows
        = sum_list ((λ m, match iam_policy m with
                          | PolicyDict pol => kept_members pol
                          | Str _ => 0
                          end)
                      <$> deref (heap (retrieved Samples.pipeline_A [111; 222]%Z
                                         Samples.empty_world)) [0]).
Proof.
  split; [exact lenient_parser_never_raises|].
  split; [reflexivity|].
  exact (flatten_cannot_fail Samples.pipeline_A Samples.empty_world
           (retrieved Samples.pipeline_A [111; 222]%Z Samples.empty_world) [0]
           lenient_parser_never_raises eq_refl).
Defined.

(** C8 as stated fails: with a member parser that raises on a member
    without a colon, [_retrieve] materializes two policies and consuming
    [_flatten] over them raises the parser's exception at the first
    member, in a binding whose role fails the filter. *)
Lemma flatten_fails_when_parser_raises :
  _retrieve MoreSamples.pipeline_strict Samples.empty_world
  = (Return [0; 1],
     retrieved MoreSamples.pipeline_strict [111; 222]%Z Samples.empty_world)
  ∧ iterate (_flatten MoreSamples.pipeline_strict [0; 1])
      (heap (retrieved MoreSamples.pipeline_strict [111; 222]%Z Samples.empty_world))
    = ([], Some (ValueError "need more than 1 value to unpack"))
  ∧ ¬ ∃ rows,
        iterate (_flatten MoreSamples.pipeline_strict [0; 1])
          (heap (retrieved MoreSamples.pipeline_strict [111; 222]%Z
                   Samples.empty_world))
        = (rows, None).
Proof.
  split; [reflexivity|]. split; [reflexivity|].
  intros [rows H]. vm_compute in H. discriminate.
Qed.

(** The parser runs before the role is looked at: a parser that raises
    on a member ends the generator there, also in a binding that the
    role filter would have dropped. *)
Lemma parser_runs_on_filtered_binding :
  flatten_maps (init Samples.cycle Samples.client_A Samples.dao_ok Samples.strict_parser)
    [to_map (111%Z, Samples.admin_policy)]
  = ([], Some (ValueError "need more than 1 value to unpack")).
Proof. reflexivity. Qed.

(** A binding yields one row per member exactly when its role starts
    with ["roles/"], and none otherwise. *)
Lemma flatten_binding_filter (self : pipeline) (m : iam_policy_map) (b : binding) :
  never_raises (parser self) →
  ∃ rows, flatten_binding self m b = (rows, None)
          ∧ length rows = (if has_canonical_prefix b
                           then length (get (members b) []) else 0).
Proof.
  intros Hp. rewrite flatten_binding_ok by done. eexists. split; [done|].
  unfold flatten_binding_spec. destruct (has_canonical_prefix b); [|done].
  by rewrite length_fmap.
Qed.

(** What is stored for a role ["roles/" ++ rest]: [rest] with its own
    occurrences of ["roles/"] removed as well, where cutting off the
    prefix alone gives [rest]. *)
Lemma replace_prefixed_role (rest : string) :
  replace ("roles/" +:+ rest) "roles/" "" = replace rest "roles/" "".
Proof. unfold replace. by destruct rest. Qed.

Lemma substring_all (s : string) : String.substring 0 (String.length s) s = s.
Proof. induction s as [|c s IH]; [done|]. cbn. by rewrite IH. Qed.

Lemma strip_prefix_prefixed_role (rest : string) :
  strip_prefix ("roles/" +:+ rest) = rest.
Proof.
  change (String.substring 0 (String.length rest - 0) rest = rest).
  rewrite Nat.sub_0_r. apply substring_all.
Qed.

(** C2. The role stored is the role with every occurrence of ["roles/"]
    removed, not only the leading one: for the role ["roles/a/roles/b"]
    the row holds ["a/b"], while the role without its prefix is
    ["a/roles/b"]. *)
Theorem flatten_role_drops_every_occurrence :
  flatten_maps Samples.pipeline_A [to_map (111%Z, Samples.nested_role_policy)]
  = ([ {| row_project_number := 111; role := "a/b"; member_type := "user";
          member_name := "a"; member_domain := "x.com" |} ], None)
  ∧ strip_prefix "roles/a/roles/b" = "a/roles/b"
  ∧ replace "roles/a/roles/b" "roles/" "" ≠ strip_prefix "roles/a/roles/b".
Proof. split; [reflexivity|]. split; [reflexivity|]. discriminate. Qed.

(** ** Properties of a run *)

Section Run.

Variable json_dumps : py_value → string.
Variable self : pipeline.

Lemma elem_of_fetched (ids : list Z) (id : Z) (pol : policy) :
  (id, pol) ∈ fetched self ids
  ↔ id ∈ ids
    ∧ get_project_iam_policies (gcp_api_client self) (name self) id = Return pol.
Proof.
  unfold fetched. rewrite list_elem_of_omap. split.
  - intros (x & Hx & Hf).
    destruct (get_project_iam_policies (gcp_api_client self) (name self) x) eqn:E;
      [|done].
    by simplify_eq.
  - intros [Hin Hf]. exists id. by rewrite Hf.
Qed.

Lemma elem_of_fetch_failures (ids : list Z) (id : Z) (e : exn) :
  (id, e) ∈ fetch_failures self ids
  ↔ id ∈ ids
    ∧ get_project_iam_policies (gcp_api_client self) (name self) id = Raise e.
Proof.
  unfold fetch_failures. rewrite list_elem_of_omap. split.
  - intros (x & Hx & Hf).
    destruct (get_project_iam_policies (gcp_api_client self) (name self) x) eqn:E;
      [done|].
    by simplify_eq.
  - intros [Hin Hf]. exists id. by rewrite Hf.
Qed.

Lemma deref_retrieved (ids : list Z) (w : world) :
  deref (heap (retrieved self ids w)) (retrieved_refs self ids w)
  = to_map <$> fetched self ids.
Proof.
  unfold retrieved, retrieved_refs. cbn [heap].
  rewrite <- (length_fmap to_map (fetched self ids)).
  pose proof (deref_seq (heap w) (to_map <$> fetched self ids) []) as H.
  by rewrite app_nil_r in H.
Qed.

Lemma elem_of_flatten_spec (p : Parser) (recs : list (Z * policy)) (f : flattened) :
  f ∈ flatten_spec p recs ↔ ∃ r, r ∈ recs ∧ f ∈ flatten_record_spec p r.
Proof.
  unfold flatten_spec. rewrite list_elem_of_In, in_flat_map.
  split; intros (r & Hr & Hf); exists r; by rewrite ?list_elem_of_In in *.
Qed.

(** C4. When [select_project_numbers] raises [MySQLError], [_retrieve]
    and with it [run] raise one [LoadDataPipelineError] wrapping that
    error and leave the world as it was: no fetch was made and no call
    of [load_data] reached a table. *)
Theorem selector_failure_aborts_run (w : world) (msg : string) :
  select_project_numbers (dao self) (name self) (cycle_timestamp self)
    = Raise (MySQLError msg) →
  _retrieve self w = (Raise (LoadDataPipelineError (MySQLError msg)), w)
  ∧ (∃ w' : world,
       run json_dumps self w = (Raise (LoadDataPipelineError (MySQLError msg)), w')
       ∧ api_calls w' = api_calls w
       ∧ dao_calls w' = dao_calls w
       ∧ heap w' = heap w).
Proof.
  intros Hsel. split; [by apply retrieve_select_fails|].
  exists w. unfold run. unfold bind at 1.
  by rewrite (retrieve_select_fails self msg w Hsel).
Qed.

(** C3. When the fetch for one selected id raises [ApiExecutionError],
    the error is logged under that id, no dictionary of the retrieve
    stage carries that id, and the run goes on: every id whose fetch
    succeeded has its dictionary in the output of [_retrieve], its rows
    in the flattened write and its serialized policy in the raw write,
    and, the sink accepting both writes and the count query, [run]
    returns. *)
Theorem fetch_failure_is_isolated (w : world) (ids : list Z) (bad : Z)
    (msg : string) (n : Z) :
  select_project_numbers (dao self) (name self) (cycle_timestamp self) = Return ids →
  bad ∈ ids →
  get_project_iam_policies (gcp_api_client self) (name self) bad
    = Raise (ApiExecutionError msg) →
  api_errors_only self ids →
  never_raises (parser self) →
  load_data_fault (dao self) (name self) (cycle_timestamp self)
    (call_rows (flat_call self ids None)) = None →
  load_data_fault (dao self) RAW_RESOURCE_NAME (cycle_timestamp self)
    (call_rows (raw_call json_dumps self ids None)) = None →
  select_record_count (dao self) (name self) (cycle_timestamp self) = Return n →
  ∃ (refs : list loc) (w1 w2 : world),
    _retrieve self w = (Return refs, w1)
    ∧ (bad, ApiExecutionError msg) ∈ logged_errors w1
    ∧ (∀ m, m ∈ deref (heap w1) refs → project_number m ≠ bad)
    ∧ run json_dumps self w = (Return (), w2)
    ∧ dao_calls w2
      = dao_calls w ++ [flat_call self ids None; raw_call json_dumps self ids None]
    ∧ ∀ id pol,
        id ∈ ids →
        get_project_iam_policies (gcp_api_client self) (name self) id = Return pol →
        to_map (id, pol) ∈ deref (heap w1) refs
        ∧ MapRow (dumped json_dumps (to_map (id, pol)))
            ∈ call_rows (raw_call json_dumps self ids None)
        ∧ ∀ f, f ∈ flatten_record_spec (parser self) (id, pol) →
               FlatRow f ∈ call_rows (flat_call self ids None).
Proof.
  intros Hsel Hbad Hfail Hapi Hp Hflat Hraw Hcount.
  eexists (retrieved_refs self ids w), (retrieved self ids w), _.
  split; [by apply retrieve_ok|].
  split.
  { cbn [retrieved logged_errors]. apply elem_of_app. right.
    by apply elem_of_fetch_failures. }
  split.
  { rewrite deref_retrieved. intros m Hin Hm.
    apply list_elem_of_fmap in Hin as ([id pol] & -> & Hin).
    apply elem_of_fetched in Hin as [_ Hok]. cbn in Hm. subst id.
    rewrite Hfail in Hok. discriminate. }
  split.
  { rewrite (run_after_select json_dumps self ids) by done.
    unfold load_outcome. rewrite Hflat, Hraw.
    unfold _get_loaded_count. rewrite Hcount. reflexivity. }
  split.
  { cbn. by rewrite <- app_assoc. }
  intros id pol Hin Hok.
  assert (Hf : (id, pol) ∈ fetched self ids) by by apply elem_of_fetched.
  split; [|split].
  - rewrite deref_retrieved. by apply list_elem_of_fmap_2.
  - cbn [raw_call call_rows]. by do 3 apply list_elem_of_fmap_2.
  - intros f Hrow. cbn [flat_call call_rows]. apply list_elem_of_fmap_2.
    apply elem_of_flatten_spec. by exists (id, pol).
Qed.

(** C5. When the sink raises [CSVFileError] or [MySQLError] on the
    flattened write, or accepts it and raises on the raw write, [_load]
    raises [LoadDataPipelineError] carrying that error and so does
    [run]; the failed call was made once, and in the second case the
    flattened rows stay written. *)
Theorem write_failure_is_fatal (w : world) (ids : list Z) (e : exn) :
  select_project_numbers (dao self) (name self) (cycle_timestamp self) = Return ids →
  api_errors_only self ids →
  never_raises (parser self) →
  is_storage_error e →
  load_data_fault (dao self) (name self) (cycle_timestamp self)
    (call_rows (flat_call self ids None)) = Some e
  ∨ (load_data_fault (dao self) (name self) (cycle_timestamp self)
       (call_rows (flat_call self ids None)) = None
     ∧ load_data_fault (dao self) RAW_RESOURCE_NAME (cycle_timestamp self)
         (call_rows (raw_call json_dumps self ids None)) = Some e) →
  ∃ w' : world,
    _load json_dumps self (retrieved_refs self ids w)
      (_flatten self (retrieved_refs self ids w)) (retrieved self ids w)
    = (Raise (LoadDataPipelineError e), w')
    ∧ run json_dumps self w = (Raise (LoadDataPipelineError e), w')
    ∧ count w' = count w
    ∧ (load_data_fault (dao self) (name self) (cycle_timestamp self)
         (call_rows (flat_call self ids None)) = Some e →
       dao_calls w' = dao_calls w ++ [flat_call self ids (Some e)])
    ∧ (load_data_fault (dao self) (name self) (cycle_timestamp self)
         (call_rows (flat_call self ids None)) = None →
       dao_calls w'
       = dao_calls w ++ [flat_call self ids None;
                         raw_call json_dumps self ids (Some e)]).
Proof.
  intros Hsel Hapi Hp He Hfault.
  assert (Hwrap : load_wrap e = LoadDataPipelineError e) by by destruct e.
  rewrite (run_after_select json_dumps self ids) by done.
  rewrite load_after_retrieve by done.
  unfold load_outcome.
  destruct Hfault as [Hflat|[Hflat Hraw]].
  - rewrite Hflat, Hwrap. eexists. split; [done|]. split; [done|].
    split; [done|]. split; [done|]. intros ?; discriminate.
  - rewrite Hflat, Hraw, Hwrap. eexists. split; [done|]. split; [done|].
    split; [done|]. split; [intros ?; discriminate|].
    intros _. cbn. by rewrite <- app_assoc.
Qed.

End Run.

Lemma client_A_api_errors_only (ts : string) (d : Dao) (p : Parser) (ids : list Z) :
  api_errors_only (init ts Samples.client_A d p) ids.
Proof. intros id _. cbn. by destruct (id =? 111)%Z. Qed.

Lemma selector_failure_aborts_run_witness :
  select_project_numbers (dao Samples.pipeline_B) (name Samples.pipeline_B)
    (cycle_timestamp Samples.pipeline_B)
  = Raise (MySQLError "server has gone away")
  ∧ _retrieve Samples.pipeline_B Samples.empty_world
    = (Raise (LoadDataPipelineError (MySQLError "server has gone away")),
       Samples.empty_world)
  ∧ (∃ w' : world,
       run Samples.sample_dumps Samples.pipeline_B Samples.empty_world
       = (Raise (LoadDataPipelineError (MySQLError "server has gone away")), w')
       ∧ api_calls w' = []
       ∧ dao_calls w' = []
       ∧ heap w' = []).
Proof.
  split; [reflexivity|].
  exact (selector_failure_aborts_run Samples.sample_dumps Samples.pipeline_B
           Samples.empty_world "server has gone away" eq_refl).
Defined.

Lemma fetch_failure_is_isolated_witness :
  (222%Z ∈ [111; 222]%Z
   ∧ api_errors_only Samples.pipeline_A [111; 222]%Z
   ∧ never_raises (parser Samples.pipeline_A))
  ∧ ∃ (refs : list loc) (w1 w2 : world),
      _retrieve Samples.pipeline_A Samples.empty_world = (Return refs, w1)
      ∧ (222%Z, ApiExecutionError "HttpError 403") ∈ logged_errors w1
      ∧ (∀ m, m ∈ deref (heap w1) refs → project_number m ≠ 222%Z)
      ∧ run Samples.sample_dumps Samples.pipeline_A Samples.empty_world
        = (Return (), w2)
      ∧ dao_calls w2
        = [] ++ [flat_call Samples.pipeline_A [111; 222]%Z None;
                 raw_call Samples.sample_dumps Samples.pipeline_A [111; 222]%Z None]
      ∧ ∀ id pol,
          id ∈ [111; 222]%Z →
          get_project_iam_policies Samples.client_A RESOURCE_NAME id = Return pol →
          to_map (id, pol) ∈ deref (heap w1) refs
          ∧ MapRow (dumped Samples.sample_dumps (to_map (id, pol)))
              ∈ call_rows (raw_call Samples.sample_dumps Samples.pipeline_A
                             [111; 222]%Z None)
          ∧ ∀ f, f ∈ flatten_record_spec Samples.lenient_parser (id, pol) →
                 FlatRow f ∈ call_rows (flat_call Samples.pipeline_A [111; 222]%Z None).
Proof.
  split.
  { split; [apply list_elem_of_further, list_elem_of_here|].
    split; [apply client_A_api_errors_only|exact lenient_parser_never_raises]. }
  exact (fetch_failure_is_isolated Samples.sample_dumps Samples.pipeline_A
           Samples.empty_world [111; 222]%Z 222%Z "HttpError 403" 1%Z
           eq_refl (list_elem_of_further _ _ _ (list_elem_of_here _ _)) eq_refl
           (client_A_api_errors_only _ _ _ _) lenient_parser_never_raises
           eq_refl eq_refl eq_refl).
Defined.

Lemma write_failure_is_fatal_witness :
  (api_errors_only Samples.pipeline_raw_fails [111; 222]%Z
   ∧ never_raises (parser Samples.pipeline_raw_fails)
   ∧ is_storage_error (MySQLError "LOAD DATA failed"))
  ∧ ∃ w' : world,
      _load Samples.sample_dumps Samples.pipeline_raw_fails [0]
        (_flatten Samples.pipeline_raw_fails [0])
        (retrieved Samples.pipeline_raw_fails [111; 222]%Z Samples.empty_world)
      = (Raise (LoadDataPipelineError (MySQLError "LOAD DATA failed")), w')
      ∧ run Samples.sample_dumps Samples.pipeline_raw_fails Samples.empty_world
        = (Raise (LoadDataPipelineError (MySQLError "LOAD DATA failed")), w')
      ∧ count w' = None
      ∧ dao_calls w'
        = [flat_call Samples.pipeline_raw_fails [111; 222]%Z None;
           raw_call Samples.sample_dumps Samples.pipeline_raw_fails [111; 222]%Z
             (Some (MySQLError "LOAD DATA failed"))].
Proof.
  split.
  { split; [apply client_A_api_errors_only|].
    split; [exact lenient_parser_never_raises|exact I]. }
  destruct (write_failure_is_fatal Samples.sample_dumps Samples.pipeline_raw_fails
              Samples.empty_world [111; 222]%Z (MySQLError "LOAD DATA failed")
              eq_refl (client_A_api_errors_only _ _ _ _) lenient_parser_never_raises
              I (or_intror (conj eq_refl eq_refl)))
    as (w' & Hload & Hrun & Hcount & _ & Hcalls).
  exists w'. split; [exact Hload|]. split; [exact Hrun|].
  split; [exact Hcount|]. exact (Hcalls eq_refl).
Defined.

(** ** Resource ids of the rows, and the dictionaries after the load *)

Lemma flat_ids_FlatRow (l : list flattened) :
  flat_ids (FlatRow <$> l) = row_project_number <$> l.
Proof. induction l as [|x l IH]; [done|]. unfold flat_ids in *. cbn. by rewrite IH. Qed.

Lemma flat_ids_MapRow (l : list iam_policy_map) : flat_ids (MapRow <$> l) = [].
Proof. induction l as [|x l IH]; [done|]. unfold flat_ids in *. by cbn. Qed.

Lemma raw_ids_MapRow (l : list iam_policy_map) :
  raw_ids (MapRow <$> l) = project_number <$> l.
Proof. induction l as [|x l IH]; [done|]. unfold raw_ids in *. cbn. by rewrite IH. Qed.

Lemma flat_ids_app (l1 l2 : list row) : flat_ids (l1 ++ l2) = flat_ids l1 ++ flat_ids l2.
Proof. apply omap_app. Qed.

Lemma raw_ids_app (l1 l2 : list row) : raw_ids (l1 ++ l2) = raw_ids l1 ++ raw_ids l2.
Proof. apply omap_app. Qed.

(** Flattening never introduces a resource id: the id of a row is the
    id of one of the records flattened. *)
Lemma flatten_spec_ids (p : Parser) (recs : list (Z * policy)) (f : flattened) :
  f ∈ flatten_spec p recs → ∃ pol, (row_project_number f, pol) ∈ recs.
Proof.
  intros Hf. apply elem_of_flatten_spec in Hf as ([id pol] & Hr & Hf).
  pose proof (flatten_record_spec_id p (id, pol)) as Hall.
  rewrite Forall_forall in Hall.
  exists pol. by rewrite (Hall f Hf).
Qed.

(** [load_data] never touches the dictionaries. *)
Lemma load_data_heap (self : pipeline) (table cycle : string) (data : iterable)
    (w w' : world) (r : outcome ()) :
  load_data self table cycle data w = (r, w') → heap w' = heap w.
Proof.
  unfold load_data. destruct (iterate data (heap w)) as [rows [e|]].
  - by intros [= _ <-].
  - destruct (load_data_fault (dao self) table cycle rows); by intros [= _ <-].
Qed.

Lemma elem_of_gen_for {A B : Type} (l : list A) (body : A → generated B) (y : B) :
  y ∈ (gen_for l body).1 → ∃ x, x ∈ l ∧ y ∈ (body x).1.
Proof.
  induction l as [|x l IH]; intros Hy.
  - by apply elem_of_nil in Hy.
  - cbn [gen_for] in Hy. unfold gen_then in Hy.
    destruct (body x) as [ys [e|]] eqn:Hx; cbn [fst] in Hy.
    + exists x. split; [apply list_elem_of_here|]. by rewrite Hx.
    + apply elem_of_app in Hy as [Hy|Hy].
      * exists x. split; [apply list_elem_of_here|]. by rewrite Hx.
      * destruct (IH Hy) as (x' & Hin & Hy'). exists x'.
        split; [by apply list_elem_of_further|done].
Qed.

(** Whatever the parser does, a row the generator yields while it reads
    a dictionary carries the project_number of that dictionary. *)
Lemma flatten_map_ids (self : pipeline) (m : iam_policy_map) (f : flattened) :
  f ∈ (flatten_map self m).1 → row_project_number f = project_number m.
Proof.
  unfold flatten_map. destruct (iam_policy m) as [pol|txt]; intros Hf.
  - apply elem_of_gen_for in Hf as (b & _ & Hf). unfold flatten_binding in Hf.
    apply elem_of_gen_for in Hf as (member & _ & Hf). unfold flatten_member in Hf.
    destruct (parse_member_info (parser self) member) as [[[ty nm] dom]|e].
    + destruct (startswith (get (binding_role b) "") "roles/"); cbn in Hf.
      * by apply list_elem_of_singleton in Hf as ->.
      * by apply elem_of_nil in Hf.
    + by apply elem_of_nil in Hf.
  - by apply elem_of_nil in Hf.
Qed.

Lemma flatten_maps_ids (self : pipeline) (maps : list iam_policy_map) (f : flattened) :
  f ∈ (flatten_maps self maps).1 →
  ∃ m, m ∈ maps ∧ row_project_number f = project_number m.
Proof.
  intros Hf. apply elem_of_gen_for in Hf as (m & Hm & Hf).
  exists m. split; [done|]. by apply (flatten_map_ids self).
Qed.

(** What consuming [_flatten] gives over the dictionaries [_retrieve]
    left, whatever the parser does. *)
Lemma iterate_flatten_retrieved (self : pipeline) (ids : list Z) (w : world) :
  iterate (_flatten self (retrieved_refs self ids w)) (heap (retrieved self ids w))
  = (FlatRow <$> (flatten_maps self (to_map <$> fetched self ids)).1,
     (flatten_maps self (to_map <$> fetched self ids)).2).
Proof.
  cbn [iterate _flatten]. unfold retrieved, retrieved_refs. cbn [heap].
  rewrite <- (length_fmap to_map (fetched self ids)).
  pose proof (flatten_refs_heap self (heap w) (to_map <$> fetched self ids) []) as H.
  rewrite app_nil_r in H. by rewrite H.
Qed.

(** C6, as the code has it. The resource id of every row the generator
    of [_flatten] yields over the output of [_retrieve], whatever the
    member parser does, is the id of a Policy Record whose retrieval
    succeeded and that is in that output, so flattening introduces no
    id; and in a run in which the parser returns and the sink accepts
    both writes, each such id is the id of a row stored in the raw table
    in that run. *)
Theorem flattened_ids_come_from_retrieved (json_dumps : py_value → string)
    (self : pipeline) (w : world) (ids : list Z) :
  select_project_numbers (dao self) (name self) (cycle_timestamp self) = Return ids →
  api_errors_only self ids →
  ∃ (refs : list loc) (w1 : world),
    _retrieve self w = (Return refs, w1)
    ∧ (∀ r, r ∈ (iterate (_flatten self refs) (heap w1)).1 →
            ∃ f pol,
              r = FlatRow f
              ∧ row_project_number f ∈ ids
              ∧ get_project_iam_policies (gcp_api_client self) (name self)
                  (row_project_number f) = Return pol
              ∧ to_map (row_project_number f, pol) ∈ deref (heap w1) refs)
    ∧ (never_raises (parser self) →
       load_data_fault (dao self) (name self) (cycle_timestamp self)
         (call_rows (flat_call self ids None)) = None →
       load_data_fault (dao self) RAW_RESOURCE_NAME (cycle_timestamp self)
         (call_rows (raw_call json_dumps self ids None)) = None →
       ∃ (res : outcome ()) (w' : world),
         run json_dumps self w = (res, w')
         ∧ (∀ r, r ∈ (iterate (_flatten self refs) (heap w1)).1 →
                 r ∈ rows_offered (name self)
                       (drop (length (dao_calls w)) (dao_calls w')))
         ∧ flattened_ids_backed self w w').
Proof.
  intros Hsel Hapi.
  exists (retrieved_refs self ids w), (retrieved self ids w).
  split; [by apply retrieve_ok|].
  rewrite iterate_flatten_retrieved. cbn [fst]. split.
  { intros r Hr. apply list_elem_of_fmap in Hr as (f & -> & Hf).
    apply flatten_maps_ids in Hf as (m & Hm & Hid).
    apply list_elem_of_fmap in Hm as ([id pol] & -> & Hin).
    cbn in Hid. subst id. exists f, pol. split; [done|].
    rewrite (deref_retrieved self).
    pose proof Hin as Hin'. apply elem_of_fetched in Hin' as [Hids Hok].
    split; [done|]. split; [done|]. by apply list_elem_of_fmap_2. }
  intros Hp Hflat Hraw. rewrite flatten_maps_spec by done. cbn [fst].
  rewrite (run_after_select json_dumps self ids) by done.
  unfold load_outcome. rewrite Hflat, Hraw. unfold _get_loaded_count.
  set (calls := [flat_call self ids None; raw_call json_dumps self ids None]).
  assert (Hoff : ∀ r, r ∈ FlatRow <$> flatten_spec (parser self) (fetched self ids) →
                      r ∈ rows_offered (name self) calls).
  { intros r Hr. unfold rows_offered, calls. cbn [flat_map flat_call call_table call_rows].
    rewrite String.eqb_refl. apply elem_of_app. by left. }
  assert (Hback : ∀ id, id ∈ flat_ids (rows_offered (name self) calls) →
                        id ∈ raw_ids (rows_loaded RAW_RESOURCE_NAME calls)).
  { intros id. unfold rows_offered, rows_loaded, calls.
    cbn [flat_map flat_call raw_call call_table call_rows call_error].
    rewrite String.eqb_refl, (String.eqb_refl RAW_RESOURCE_NAME), !app_nil_r.
    rewrite flat_ids_app, raw_ids_app, flat_ids_FlatRow, raw_ids_MapRow.
    intros Hid. apply elem_of_app. right.
    assert (Hfl : id ∈ row_project_number <$> flatten_spec (parser self) (fetched self ids)).
    { apply elem_of_app in Hid as [Hid|Hid]; [done|].
      destruct (String.eqb RAW_RESOURCE_NAME (name self));
        [rewrite flat_ids_MapRow in Hid|]; by apply elem_of_nil in Hid. }
    apply list_elem_of_fmap in Hfl as (f & -> & Hf).
    apply flatten_spec_ids in Hf as [pol Hin].
    rewrite <- !list_fmap_compose.
    apply list_elem_of_fmap. by exists (row_project_number f, pol). }
  assert (Hdrop : ∀ l, drop (length (dao_calls w)) ((dao_calls w ++ [flat_call self ids None]) ++ l)
                       = flat_call self ids None :: l).
  { intros l. rewrite <- app_assoc. by rewrite drop_app_length. }
  destruct (select_record_count (dao self) (name self) (cycle_timestamp self))
    as [n|e]; eexists _, _; (split; [reflexivity|]);
    unfold flattened_ids_backed; cbn [dao_calls add_dao_call set_heap set_count retrieved];
    rewrite Hdrop; (split; [exact Hoff|exact Hback]).
Qed.

Lemma flattened_ids_come_from_retrieved_witness :
  (api_errors_only Samples.pipeline_A [111; 222]%Z
   ∧ never_raises (parser Samples.pipeline_A))
  ∧ ∃ (refs : list loc) (w1 : world),
      _retrieve Samples.pipeline_A Samples.empty_world = (Return refs, w1)
      ∧ (∀ r, r ∈ (iterate (_flatten Samples.pipeline_A refs) (heap w1)).1 →
              ∃ f pol,
                r = FlatRow f
                ∧ row_project_number f ∈ [111; 222]%Z
                ∧ get_project_iam_policies Samples.client_A RESOURCE_NAME
                    (row_project_number f) = Return pol
                ∧ to_map (row_project_number f, pol) ∈ deref (heap w1) refs)
      ∧ ∃ (res : outcome ()) (w' : world),
          run Samples.sample_dumps Samples.pipeline_A Samples.empty_world = (res, w')
          ∧ (∀ r, r ∈ (iterate (_flatten Samples.pipeline_A refs) (heap w1)).1 →
                  r ∈ rows_offered RESOURCE_NAME (drop 0 (dao_calls w')))
          ∧ flattened_ids_backed Samples.pipeline_A Samples.empty_world w'.
Proof.
  split.
  { split; [apply client_A_api_errors_only|exact lenient_parser_never_raises]. }
  destruct (flattened_ids_come_from_retrieved Samples.sample_dumps Samples.pipeline_A
              Samples.empty_world [111; 222]%Z eq_refl
              (client_A_api_errors_only _ _ _ _))
    as (refs & w1 & Hret & Hids & Hrun).
  exists refs, w1. split; [exact Hret|]. split; [exact Hids|].
  exact (Hrun lenient_parser_never_raises eq_refl eq_refl).
Defined.

(** C6 as stated fails: when the sink stores the flattened rows and then
    fails on the raw table, the rows [_flatten] produced for resource 111
    have no row in the raw table of that run. *)
Lemma flattened_ids_unbacked_after_raw_failure :
  ¬ flattened_ids_backed Samples.pipeline_raw_fails Samples.empty_world
      (run Samples.sample_dumps Samples.pipeline_raw_fails Samples.empty_world).2.
Proof.
  intros H. specialize (H 111%Z).
  assert (Hflat : 111%Z ∈ flat_ids
            (rows_offered (name Samples.pipeline_raw_fails)
               (drop (length (dao_calls Samples.empty_world))
                  (dao_calls (run Samples.sample_dumps Samples.pipeline_raw_fails
                                Samples.empty_world).2))))
    by (vm_compute; apply list_elem_of_here).
  apply H in Hflat. vm_compute in Hflat. by apply elem_of_nil in Hflat.
Qed.

(** C9 as stated fails: once [_load] has returned, the dictionary built
    for resource 111 holds a text under ['iam_policy'], not the policy
    that was fetched. *)
Lemma load_replaces_fetched_policy :
  _retrieve Samples.pipeline_A Samples.empty_world
  = (Return [0], retrieved Samples.pipeline_A [111; 222]%Z Samples.empty_world)
  ∧ (_load Samples.sample_dumps Samples.pipeline_A [0] (_flatten Samples.pipeline_A [0])
       (retrieved Samples.pipeline_A [111; 222]%Z Samples.empty_world)).1
    = Return ()
  ∧ deref (heap (retrieved Samples.pipeline_A [111; 222]%Z Samples.empty_world)) [0]
    = [ {| project_number := 111; iam_policy := PolicyDict Samples.owner_policy |} ]
  ∧ deref (heap (_load Samples.sample_dumps Samples.pipeline_A [0]
                   (_flatten Samples.pipeline_A [0])
                   (retrieved Samples.pipeline_A [111; 222]%Z Samples.empty_world)).2)
      [0]
    ≠ deref (heap (retrieved Samples.pipeline_A [111; 222]%Z Samples.empty_world)) [0].
Proof.
  split; [reflexivity|]. split; [reflexivity|]. split; [reflexivity|].
  vm_compute. discriminate.
Qed.

(** C9, as the code has it. The dictionaries of a run are allocated by
    [_retrieve] after those already there; consuming the generator of
    [_flatten] through [load_data] leaves them as they are; and when
    [_load] returns, each of them keeps its project_number and holds
    under ['iam_policy'] the text [json.dumps] gave for the policy it
    held before. *)
Theorem load_serializes_policies_in_place (json_dumps : py_value → string)
    (self : pipeline) (w : world) (ids : list Z) :
  select_project_numbers (dao self) (name self) (cycle_timestamp self) = Return ids →
  api_errors_only self ids →
  never_raises (parser self) →
  load_data_fault (dao self) (name self) (cycle_timestamp self)
    (call_rows (flat_call self ids None)) = None →
  load_data_fault (dao self) RAW_RESOURCE_NAME (cycle_timestamp self)
    (call_rows (raw_call json_dumps self ids None)) = None →
  ∃ (refs : list loc) (w1 w2 : world),
    _retrieve self w = (Return refs, w1)
    ∧ heap w1 = heap w ++ deref (heap w1) refs
    ∧ deref (heap w1) refs = to_map <$> fetched self ids
    ∧ heap (load_data self (name self) (cycle_timestamp self)
              (_flatten self refs) w1).2 = heap w1
    ∧ _load json_dumps self refs (_flatten self refs) w1 = (Return (), w2)
    ∧ heap w2 = heap w ++ deref (heap w2) refs
    ∧ Forall2 (λ before after,
                 project_number after = project_number before
                 ∧ iam_policy after = Str (json_dumps (iam_policy before)))
        (deref (heap w1) refs) (deref (heap w2) refs).
Proof.
  intros Hsel Hapi Hp Hflat Hraw.
  eexists (retrieved_refs self ids w), (retrieved self ids w), _.
  split; [by apply retrieve_ok|].
  rewrite deref_retrieved.
  split; [done|]. split; [done|].
  split.
  { destruct (load_data self (name self) (cycle_timestamp self)
                (_flatten self (retrieved_refs self ids w)) (retrieved self ids w))
      as [r w1'] eqn:E.
    by apply load_data_heap in E. }
  split.
  { rewrite load_after_retrieve by done. unfold load_outcome.
    rewrite Hflat, Hraw. reflexivity. }
  cbn [heap add_dao_call set_heap]. unfold dumped_heap.
  assert (Hd : deref (heap w ++ (dumped json_dumps <$> (to_map <$> fetched self ids)))
                 (retrieved_refs self ids w)
               = dumped json_dumps <$> (to_map <$> fetched self ids)).
  { unfold retrieved_refs.
    rewrite <- (length_fmap to_map (fetched self ids)).
    rewrite <- (length_fmap (dumped json_dumps) (to_map <$> fetched self ids)).
    pose proof (deref_seq (heap w)
                  (dumped json_dumps <$> (to_map <$> fetched self ids)) []) as H.
    by rewrite app_nil_r in H. }
  rewrite Hd. split; [done|].
  apply Forall2_fmap_r, Forall_Forall2_diag, Forall_true. by intros m.
Qed.

Lemma load_serializes_policies_in_place_witness :
  (api_errors_only Samples.pipeline_A [111; 222]%Z
   ∧ never_raises (parser Samples.pipeline_A))
  ∧ ∃ (refs : list loc) (w1 w2 : world),
      _retrieve Samples.pipeline_A Samples.empty_world = (Return refs, w1)
      ∧ heap w1 = [] ++ deref (heap w1) refs
      ∧ deref (heap w1) refs = to_map <$> fetched Samples.pipeline_A [111; 222]%Z
      ∧ heap (load_data Samples.pipeline_A RESOURCE_NAME Samples.cycle
                (_flatten Samples.pipeline_A refs) w1).2 = heap w1
      ∧ _load Samples.sample_dumps Samples.pipeline_A refs
          (_flatten Samples.pipeline_A refs) w1 = (Return (), w2)
      ∧ heap w2 = [] ++ deref (heap w2) refs
      ∧ Forall2 (λ before after,
                   project_number after = project_number before
                   ∧ iam_policy after = Str (Samples.sample_dumps (iam_policy before)))
          (deref (heap w1) refs) (deref (heap w2) refs).
Proof.
  split.
  { split; [apply client_A_api_errors_only|exact lenient_parser_never_raises]. }
  exact (load_serializes_policies_in_place Samples.sample_dumps Samples.pipeline_A
           Samples.empty_world [111; 222]%Z eq_refl
           (client_A_api_errors_only _ _ _ _) lenient_parser_never_raises
           eq_refl eq_refl).
Defined.

(** ** Logging setup *)

(** C10. Whatever the two flags and the hosting environment are,
    [get_logger] attaches exactly one handler to the logger, and that
    handler is a local stream handler: the branch for cloud logging does
    nothing, so no cloud-hosted handler is ever attached. *)
Theorem get_logger_always_attaches_stream_handler (FLAGS : LogUtil.flag_values)
    (is_gce : bool) (getenv_DEBUG : option string)
    (registry : gmap string LogUtil.logger) (module_name : string) :
  LogUtil.handlers (LogUtil.get_logger FLAGS is_gce getenv_DEBUG registry module_name).1
  = LogUtil.handlers (LogUtil.getLogger registry module_name)
    ++ [ {| LogUtil.handler_kind := LogUtil.StreamHandler;
            LogUtil.formatter :=
              Some "%(asctime)s %(name)-12s %(levelname)-8s %(message)s" |} ]
  ∧ LogUtil.get_logger {| LogUtil.use_cloud_logging := true;
                          LogUtil.nouse_cloud_logging := false |}
      true getenv_DEBUG registry module_name
    = LogUtil.get_logger {| LogUtil.use_cloud_logging := false;
                            LogUtil.nouse_cloud_logging := true |}
        false getenv_DEBUG registry module_name.
Proof.
  split.
  - unfold LogUtil.get_logger.
    destruct FLAGS as [[] []], is_gce, (LogUtil.truthy getenv_DEBUG); reflexivity.
  - reflexivity.
Qed.

(** * Further properties of the pipeline *)

(** ** The retrieve stage under other failures *)

(** X1. An exception of [select_project_numbers] that is not a
    [MySQLError] is not wrapped: [_retrieve] and [run] raise it as it
    is and leave the world untouched. *)
Theorem retrieve_propagates_other_selector_errors (json_dumps : py_value → string)
    (self : pipeline) (w : world) (e : exn) :
  select_project_numbers (dao self) (name self) (cycle_timestamp self) = Raise e →
  (∀ msg, e ≠ MySQLError msg) →
  _retrieve self w = (Raise e, w) ∧ run json_dumps self w = (Raise e, w).
Proof.
  intros Hsel Hne.
  assert (Hret : _retrieve self w = (Raise e, w)).
  { unfold _retrieve, bind, try_except. rewrite Hsel.
    destruct e; try reflexivity. by destruct (Hne msg). }
  split; [done|]. unfold run. unfold bind at 1. by rewrite Hret.
Qed.

Lemma retrieve_propagates_other_selector_errors_witness :
  (∀ msg, ValueError "bad cycle timestamp" ≠ MySQLError msg)
  ∧ _retrieve MoreSamples.pipeline_select_other Samples.empty_world
    = (Raise (ValueError "bad cycle timestamp"), Samples.empty_world)
  ∧ run Samples.sample_dumps MoreSamples.pipeline_select_other Samples.empty_world
    = (Raise (ValueError "bad cycle timestamp"), Samples.empty_world).
Proof.
  split; [discriminate|].
  exact (retrieve_propagates_other_selector_errors Samples.sample_dumps
           MoreSamples.pipeline_select_other Samples.empty_world
           (ValueError "bad cycle timestamp") eq_refl
           (λ msg H, eq_ind (ValueError "bad cycle timestamp")
                       (λ x, match x with ValueError _ => True | _ => False end)
                       I _ H)).
Defined.

Lemma for_in_app {A S : Type} (l1 l2 : list A) (body : A → S → M S) (s : S) (w : world) :
  for_in (l1 ++ l2) body s w
  = match for_in l1 body s w with
    | (Return s', w') => for_in l2 body s' w'
    | (Raise e, w') => (Raise e, w')
    end.
Proof.
  revert s w. induction l1 as [|x l1 IH]; intros s w; [done|].
  cbn [app for_in]. unfold bind. destruct (body x s w) as [[s'|e] w']; [apply IH|done].
Qed.

Lemma retrieve_loop_abort (self : pipeline) (l1 l2 : list Z) (x : Z) (e : exn)
    (acc : list loc) (w : world) :
  api_errors_only self l1 →
  get_project_iam_policies (gcp_api_client self) (name self) x = Raise e →
  (∀ msg, e ≠ ApiExecutionError msg) →
  for_in (l1 ++ x :: l2) (retrieve_one self) acc w
  = (Raise e, add_api_call x (retrieved self l1 w)).
Proof.
  intros Hapi Hx Hne. rewrite for_in_app, retrieve_loop by done.
  cbn [for_in]. unfold bind at 1. unfold retrieve_one at 1. unfold try_except.
  unfold bind at 1. unfold api_get_project_iam_policies. rewrite Hx.
  destruct e; try reflexivity. by destruct (Hne msg).
Qed.

(** X2. A fetch that raises anything but [ApiExecutionError] aborts
    [_retrieve] with that exception: the ids after it are never
    fetched, what was fetched and logged before it stays, and [run]
    raises the same exception without any call of [load_data]. *)
Theorem retrieve_aborts_on_other_fetch_error (json_dumps : py_value → string)
    (self : pipeline) (w : world) (l1 l2 : list Z) (x : Z) (e : exn) :
  select_project_numbers (dao self) (name self) (cycle_timestamp self)
    = Return (l1 ++ x :: l2) →
  api_errors_only self l1 →
  get_project_iam_policies (gcp_api_client self) (name self) x = Raise e →
  (∀ msg, e ≠ ApiExecutionError msg) →
  ∃ w' : world,
    _retrieve self w = (Raise e, w')
    ∧ run json_dumps self w = (Raise e, w')
    ∧ api_calls w' = api_calls w ++ l1 ++ [x]
    ∧ heap w' = heap w ++ (to_map <$> fetched self l1)
    ∧ logged_errors w' = logged_errors w ++ fetch_failures self l1
    ∧ dao_calls w' = dao_calls w.
Proof.
  intros Hsel Hapi Hx Hne. exists (add_api_call x (retrieved self l1 w)).
  assert (Hret : _retrieve self w = (Raise e, add_api_call x (retrieved self l1 w))).
  { unfold _retrieve. unfold bind at 1. unfold try_except at 1. rewrite Hsel.
    by apply retrieve_loop_abort. }
  split; [done|]. split.
  { unfold run. unfold bind at 1. by rewrite Hret. }
  cbn. by rewrite <- app_assoc.
Qed.

Lemma retrieve_aborts_on_other_fetch_error_witness :
  (api_errors_only MoreSamples.pipeline_broken [111%Z]
   ∧ ∀ msg, ValueError "No JSON object could be decoded" ≠ ApiExecutionError msg)
  ∧ ∃ w' : world,
      _retrieve MoreSamples.pipeline_broken Samples.empty_world
      = (Raise (ValueError "No JSON object could be decoded"), w')
      ∧ run Samples.sample_dumps MoreSamples.pipeline_broken Samples.empty_world
        = (Raise (ValueError "No JSON object could be decoded"), w')
      ∧ api_calls w' = [] ++ [111%Z] ++ [222%Z]
      ∧ heap w' = [] ++ (to_map <$> fetched MoreSamples.pipeline_broken [111%Z])
      ∧ logged_errors w' = [] ++ fetch_failures MoreSamples.pipeline_broken [111%Z]
      ∧ dao_calls w' = [].
Proof.
  assert (Hapi : api_errors_only MoreSamples.pipeline_broken [111%Z]).
  { intros id Hid. apply list_elem_of_singleton in Hid as ->. exact I. }
  assert (Hne : ∀ msg, ValueError "No JSON object could be decoded"
                       ≠ ApiExecutionError msg) by discriminate.
  split; [by split|].
  exact (retrieve_aborts_on_other_fetch_error Samples.sample_dumps
           MoreSamples.pipeline_broken Samples.empty_world [111%Z] [333%Z] 222%Z
           (ValueError "No JSON object could be decoded") eq_refl Hapi eq_refl Hne).
Defined.

Lemma fetched_failures_length (self : pipeline) (ids : list Z) :
  length (fetched self ids) + length (fetch_failures self ids) = length ids.
Proof.
  induction ids as [|id ids IH]; [done|].
  destruct (get_project_iam_policies (gcp_api_client self) (name self) id)
    as [pol|e] eqn:Hf.
  - destruct (fetched_cons_ok self id ids pol Hf) as [-> ->]. cbn. lia.
  - destruct (fetched_cons_fail self id ids e Hf) as [-> ->]. cbn. lia.
Qed.

(** X3. When [_retrieve] returns, it has called the Policy Source once
    per selected id, in the selector's order; every selected id gave
    either one returned dictionary or one logged [ApiExecutionError];
    and the returned addresses are distinct dictionaries that each hold
    the policy fetched for a selected id. *)
Theorem retrieve_accounts_for_every_id (self : pipeline) (w w' : world)
    (ids : list Z) (refs : list loc) :
  select_project_numbers (dao self) (name self) (cycle_timestamp self) = Return ids →
  _retrieve self w = (Return refs, w') →
  api_calls w' = api_calls w ++ ids
  ∧ (∃ entries, logged_errors w' = logged_errors w ++ entries
                ∧ length refs + length entries = length ids
                ∧ Forall (λ en, en.1 ∈ ids ∧ ∃ msg, en.2 = ApiExecutionError msg)
                    entries)
  ∧ NoDup refs
  ∧ Forall (λ l, ∃ id pol, heap w' !! l = Some (to_map (id, pol)) ∧ id ∈ ids
                           ∧ get_project_iam_policies (gcp_api_client self)
                               (name self) id = Return pol) refs.
Proof.
  intros Hsel Hret.
  destruct (retrieve_returns _ _ _ _ Hret) as (ids' & Hsel' & Hapi & -> & ->).
  rewrite Hsel in Hsel'. injection Hsel' as <-.
  split; [done|]. split; [|split].
  - exists (fetch_failures self ids). split; [done|]. split.
    + unfold retrieved_refs. rewrite length_seq. apply fetched_failures_length.
    + apply Forall_forall. intros [id e] Hin.
      apply elem_of_fetch_failures in Hin as [Hin He]. split; [done|].
      specialize (Hapi id Hin). rewrite He in Hapi. destruct e; try done. by eexists.
  - apply NoDup_seq.
  - apply Forall_forall. intros l Hl. unfold retrieved_refs in Hl.
    apply list_elem_of_In, in_seq in Hl as [Hlo Hhi].
    cbn [retrieved heap]. rewrite lookup_app_r by lia.
    destruct ((to_map <$> fetched self ids) !! (l - length (heap w))) as [m|] eqn:Hm.
    + apply list_elem_of_lookup_2 in Hm as Hin.
      apply list_elem_of_fmap in Hin as ([id pol] & -> & Hin).
      apply elem_of_fetched in Hin as [Hin Hok]. by exists id, pol.
    + apply lookup_ge_None in Hm. rewrite length_fmap in Hm. lia.
Qed.

Lemma retrieve_accounts_for_every_id_witness :
  api_calls (retrieved Samples.pipeline_A [111; 222]%Z Samples.empty_world)
  = [] ++ [111; 222]%Z
  ∧ (∃ entries,
       logged_errors (retrieved Samples.pipeline_A [111; 222]%Z Samples.empty_world)
       = [] ++ entries
       ∧ length [0] + length entries = length [111; 222]%Z
       ∧ Forall (λ en, en.1 ∈ [111; 222]%Z ∧ ∃ msg, en.2 = ApiExecutionError msg)
           entries)
  ∧ NoDup [0]
  ∧ Forall (λ l, ∃ id pol,
              heap (retrieved Samples.pipeline_A [111; 222]%Z Samples.empty_world) !! l
              = Some (to_map (id, pol)) ∧ id ∈ [111; 222]%Z
              ∧ get_project_iam_policies Samples.client_A RESOURCE_NAME id = Return pol)
      [0].
Proof.
  exact (retrieve_accounts_for_every_id Samples.pipeline_A Samples.empty_world
           (retrieved Samples.pipeline_A [111; 222]%Z Samples.empty_world)
           [111; 222]%Z [0] eq_refl eq_refl).
Defined.

(** X4. When the selector returns no project, [_retrieve] returns the
    empty list without any fetch, and [_load] still performs both
    writes, each with no row, whatever the member parser is. *)
Theorem load_on_empty_selection (json_dumps : py_value → string)
    (self : pipeline) (w : world) :
  select_project_numbers (dao self) (name self) (cycle_timestamp self) = Return [] →
  load_data_fault (dao self) (name self) (cycle_timestamp self) [] = None →
  load_data_fault (dao self) RAW_RESOURCE_NAME (cycle_timestamp self) [] = None →
  _retrieve self w = (Return [], w)
  ∧ _load json_dumps self [] (_flatten self []) w
    = (Return (),
       add_dao_call {| call_table := RAW_RESOURCE_NAME;
                       call_cycle := cycle_timestamp self;
                       call_rows := []; call_error := None |}
         (add_dao_call {| call_table := name self;
                          call_cycle := cycle_timestamp self;
                          call_rows := []; call_error := None |} w)).
Proof.
  intros Hsel Hflat Hraw. split.
  - unfold _retrieve, bind, try_except. by rewrite Hsel.
  - unfold _load, try_except, bind, load_data. cbn. rewrite Hflat. cbn.
    rewrite Hraw. by destruct w.
Qed.

Lemma load_on_empty_selection_witness :
  _retrieve MoreSamples.pipeline_none Samples.empty_world
  = (Return [], Samples.empty_world)
  ∧ _load Samples.sample_dumps MoreSamples.pipeline_none []
      (_flatten MoreSamples.pipeline_none []) Samples.empty_world
    = (Return (),
       add_dao_call {| call_table := RAW_RESOURCE_NAME;
                       call_cycle := Samples.cycle;
                       call_rows := []; call_error := None |}
         (add_dao_call {| call_table := RESOURCE_NAME;
                          call_cycle := Samples.cycle;
                          call_rows := []; call_error := None |}
            Samples.empty_world)).
Proof.
  exact (load_on_empty_selection Samples.sample_dumps MoreSamples.pipeline_none
           Samples.empty_world eq_refl eq_refl eq_refl).
Defined.

(** ** The generator of [_flatten] at its edges *)

Lemma flatten_member_accepts (self : pipeline) (m : iam_policy_map) (b : binding)
    (member : string) (t : string * string * string) :
  parse_member_info (parser self) member = Return t →
  flatten_member self m b member
  = (if has_canonical_prefix b
     then [row_of (parser self) (project_number m) b member] else [], None).
Proof.
  intros H. unfold flatten_member, row_of, parsed, has_canonical_prefix.
  rewrite H. destruct t as [[ty nm] dom]. by destruct (startswith _ _).
Qed.

(** X6. A member the parser raises on ends the generator of its
    binding there: the rows of the members before it have been yielded
    (none if the role fails the filter), the members after it are never
    parsed, and the exception is the parser's, also when the role fails
    the filter. *)
Theorem flatten_binding_stops_at_parser_error (self : pipeline) (m : iam_policy_map)
    (b : binding) (l1 l2 : list string) (x : string) (e : exn) :
  members b = Some (l1 ++ x :: l2) →
  (∀ y, y ∈ l1 → ∃ t, parse_member_info (parser self) y = Return t) →
  parse_member_info (parser self) x = Raise e →
  flatten_binding self m b
  = (if has_canonical_prefix b
     then row_of (parser self) (project_number m) b <$> l1 else [], Some e).
Proof.
  intros Hm Hl1 Hx. unfold flatten_binding. rewrite Hm. cbn [get].
  rewrite (gen_for_raise l1 l2 x _
             (λ member, if has_canonical_prefix b
                        then [row_of (parser self) (project_number m) b member]
                        else []) [] e).
  - rewrite app_nil_r. f_equal. destruct (has_canonical_prefix b).
    + clear. induction l1 as [|y l1 IH]; [done|]. cbn. by rewrite IH.
    + clear. induction l1 as [|y l1 IH]; [done|]. by cbn.
  - intros y Hy. destruct (Hl1 y Hy) as [t Ht]. by eapply flatten_member_accepts.
  - unfold flatten_member. by rewrite Hx.
Qed.

Lemma flatten_binding_stops_at_parser_error_witness :
  (∀ y, y ∈ ["user:a@x.com"] →
        ∃ t, parse_member_info Samples.strict_parser y = Return t)
  ∧ flatten_binding MoreSamples.pipeline_strict (to_map (111%Z, Samples.owner_policy))
      {| binding_role := Some "roles/viewer";
         members := Some (["user:a@x.com"] ++ "allUsers" :: ["group:g@x.com"]) |}
    = ([ {| row_project_number := 111; role := "viewer"; member_type := "user";
            member_name := "a"; member_domain := "x.com" |} ],
       Some (ValueError "need more than 1 value to unpack")).
Proof.
  assert (H : ∀ y, y ∈ ["user:a@x.com"] →
                   ∃ t, parse_member_info Samples.strict_parser y = Return t).
  { intros y Hy. apply list_elem_of_singleton in Hy as ->. by eexists. }
  split; [exact H|].
  exact (flatten_binding_stops_at_parser_error MoreSamples.pipeline_strict
           (to_map (111%Z, Samples.owner_policy))
           {| binding_role := Some "roles/viewer";
              members := Some (["user:a@x.com"] ++ "allUsers" :: ["group:g@x.com"]) |}
           ["user:a@x.com"] ["group:g@x.com"] "allUsers"
           (ValueError "need more than 1 value to unpack") eq_refl H eq_refl).
Defined.

(** X7. A policy none of whose bindings has a member, because the
    ['bindings'] key is absent, or the ['members'] key of a binding is
    absent or holds an empty list, gives no row and no exception,
    whatever its roles are and whatever the member parser does. *)
Theorem flatten_map_without_members (self : pipeline) (pn : Z) (pol : policy) :
  Forall (λ b, get (members b) [] = []) (get (bindings pol) []) →
  flatten_map self (to_map (pn, pol)) = ([], None).
Proof.
  intros Hall. unfold flatten_map. cbn [to_map iam_policy snd].
  rewrite (gen_for_ok _ _ (λ _, [])).
  - f_equal. clear Hall.
    induction (get (bindings pol) []) as [|b bs IH]; [done|]. cbn. exact IH.
  - intros b Hb. rewrite Forall_forall in Hall. unfold flatten_binding.
    by rewrite (Hall b Hb).
Qed.

Lemma flatten_map_without_members_witness :
  Forall (λ b, get (members b) [] = [])
    (get (bindings {| bindings := Some [ {| binding_role := Some "roles/owner";
                                            members := None |};
                                         {| binding_role := None;
                                            members := Some [] |} ] |}) [])
  ∧ flatten_map MoreSamples.pipeline_strict
      (to_map (111%Z, {| bindings := Some [ {| binding_role := Some "roles/owner";
                                               members := None |};
                                            {| binding_role := None;
                                               members := Some [] |} ] |}))
    = ([], None).
Proof.
  assert (H : Forall (λ b, get (members b) [] = [])
                (get (bindings {| bindings := Some [ {| binding_role := Some "roles/owner";
                                                        members := None |};
                                                     {| binding_role := None;
                                                        members := Some [] |} ] |}) [])).
  { repeat constructor. }
  split; [exact H|].
  exact (flatten_map_without_members MoreSamples.pipeline_strict 111%Z _ H).
Defined.

Lemma prefix_roles_slash (s : string) :
  String.prefix "roles/" s = true → String.get 5 s = Some "/"%char.
Proof.
  intros H. apply String.prefix_correct in H.
  pose proof (String.substring_correct1 s 0 6 5 ltac:(lia)) as Hget.
  cbn [String.length] in H. rewrite H in Hget.
  change (5 + 0) with 5 in Hget. by rewrite <- Hget.
Qed.

Lemma replace_from_no_slash (s : string) :
  (∀ n, String.get n s ≠ Some "/"%char) →
  replace_from "roles/" "" 0 s = s.
Proof.
  induction s as [|c s IH]; intros Hno; [done|].
  cbn [replace_from].
  destruct (String.prefix "roles/" (String c s)) eqn:E.
  - apply prefix_roles_slash in E. by destruct (Hno 5).
  - f_equal. apply IH. intros n. exact (Hno (S n)).
Qed.

(** X8. For a role ["roles/" ++ rest] whose [rest] holds no further
    slash, as the predefined roles are written, the row of an accepted
    member is yielded with [rest] as its role, which is the role with
    exactly its prefix cut off. *)
Theorem flatten_member_role_without_slash (self : pipeline) (m : iam_policy_map)
    (b : binding) (member rest ty nm dom : string) :
  binding_role b = Some ("roles/" +:+ rest) →
  (∀ n, String.get n rest ≠ Some "/"%char) →
  parse_member_info (parser self) member = Return (ty, nm, dom) →
  flatten_member self m b member
  = ([ {| row_project_number := project_number m; role := rest;
          member_type := ty; member_name := nm; member_domain := dom |} ], None)
  ∧ strip_prefix ("roles/" +:+ rest) = rest.
Proof.
  intros Hrole Hno Hparse. split; [|apply strip_prefix_prefixed_role].
  unfold flatten_member. rewrite Hparse, Hrole. cbn [get].
  assert (Hpre : startswith ("roles/" +:+ rest) "roles/" = true)
    by (unfold startswith; by destruct rest).
  rewrite Hpre, replace_prefixed_role. unfold replace.
  by rewrite replace_from_no_slash.
Qed.

Lemma flatten_member_role_without_slash_witness :
  (∀ n, String.get n "compute.admin" ≠ Some "/"%char)
  ∧ flatten_member Samples.pipeline_A (to_map (111%Z, Samples.owner_policy))
      {| binding_role := Some ("roles/" +:+ "compute.admin");
         members := Some ["group:ops@x.com"] |} "group:ops@x.com"
    = ([ {| row_project_number := 111; role := "compute.admin";
            member_type := "group"; member_name := "ops";
            member_domain := "x.com" |} ], None)
  ∧ strip_prefix ("roles/" +:+ "compute.admin") = "compute.admin".
Proof.
  assert (H : ∀ n, String.get n "compute.admin" ≠ Some "/"%char).
  { intros n. do 14 (destruct n as [|n]; [discriminate|]). discriminate. }
  split; [exact H|].
  exact (flatten_member_role_without_slash Samples.pipeline_A
           (to_map (111%Z, Samples.owner_policy))
           {| binding_role := Some ("roles/" +:+ "compute.admin");
              members := Some ["group:ops@x.com"] |}
           "group:ops@x.com" "compute.admin" "group" "ops" "x.com"
           eq_refl H eq_refl).
Defined.

(** ** Order of effects inside the load stage *)

Section LoadOrder.

Variable json_dumps : py_value → string.
Variable self : pipeline.

(** X5. The generator of [_flatten] reads the dictionaries when it is
    consumed: over what [_retrieve] left it yields the rows, but
    consumed once [_load] has returned, with at least one policy
    retrieved, it yields nothing and raises [AttributeError], the
    policies being texts by then. *)
Theorem flatten_after_load_raises (w : world) (ids : list Z) :
  select_project_numbers (dao self) (name self) (cycle_timestamp self) = Return ids →
  api_errors_only self ids →
  never_raises (parser self) →
  load_data_fault (dao self) (name self) (cycle_timestamp self)
    (call_rows (flat_call self ids None)) = None →
  load_data_fault (dao self) RAW_RESOURCE_NAME (cycle_timestamp self)
    (call_rows (raw_call json_dumps self ids None)) = None →
  fetched self ids ≠ [] →
  ∃ (refs : list loc) (w1 w2 : world),
    _retrieve self w = (Return refs, w1)
    ∧ _load json_dumps self refs (_flatten self refs) w1 = (Return (), w2)
    ∧ iterate (_flatten self refs) (heap w1)
      = (FlatRow <$> flatten_spec (parser self) (fetched self ids), None)
    ∧ iterate (_flatten self refs) (heap w2)
      = ([], Some (AttributeError "'str' object has no attribute 'get'")).
Proof.
  intros Hsel Hapi Hp Hflat Hraw Hne.
  eexists (retrieved_refs self ids w), (retrieved self ids w), _.
  split; [by apply retrieve_ok|]. split.
  { rewrite load_after_retrieve by done. unfold load_outcome.
    rewrite Hflat, Hraw. reflexivity. }
  split.
  { unfold retrieved, retrieved_refs. cbn [heap].
    pose proof (iterate_flatten self (fetched self ids) (heap w) [] Hp) as H.
    by rewrite app_nil_r in H. }
  cbn [heap add_dao_call set_heap iterate _flatten]. unfold dumped_heap, retrieved_refs.
  rewrite <- (length_fmap to_map (fetched self ids)).
  rewrite <- (length_fmap (dumped json_dumps) (to_map <$> fetched self ids)).
  pose proof (flatten_refs_heap self (heap w)
                (dumped json_dumps <$> (to_map <$> fetched self ids)) []) as H.
  rewrite app_nil_r in H. rewrite H.
  destruct (fetched self ids) as [|r recs]; [done|]. reflexivity.
Qed.

(** X9. An exception of [load_data] outside [CSVFileError] and
    [MySQLError], on either write, is not wrapped: [_load] and [run]
    raise it as it is. *)
Theorem load_propagates_other_sink_errors (w : world) (ids : list Z) (e : exn) :
  select_project_numbers (dao self) (name self) (cycle_timestamp self) = Return ids →
  api_errors_only self ids →
  never_raises (parser self) →
  ¬ is_storage_error e →
  load_data_fault (dao self) (name self) (cycle_timestamp self)
    (call_rows (flat_call self ids None)) = Some e
  ∨ (load_data_fault (dao self) (name self) (cycle_timestamp self)
       (call_rows (flat_call self ids None)) = None
     ∧ load_data_fault (dao self) RAW_RESOURCE_NAME (cycle_timestamp self)
         (call_rows (raw_call json_dumps self ids None)) = Some e) →
  ∃ w' : world,
    _load json_dumps self (retrieved_refs self ids w)
      (_flatten self (retrieved_refs self ids w)) (retrieved self ids w)
    = (Raise e, w')
    ∧ run json_dumps self w = (Raise e, w').
Proof.
  intros Hsel Hapi Hp He Hfault.
  assert (Hwrap : load_wrap e = e) by (destruct e; cbn in *; tauto).
  rewrite (run_after_select json_dumps self ids) by done.
  rewrite load_after_retrieve by done. unfold load_outcome.
  destruct Hfault as [Hflat|[Hflat Hraw]].
  - rewrite Hflat, Hwrap. by eexists.
  - rewrite Hflat, Hraw, Hwrap. by eexists.
Qed.

(** X10. The policies are serialized between the two writes: when the
    flattened write raises, the dictionaries still hold the nested
    policies; when it succeeds and the raw write raises, they already
    hold the serialized texts, although [_load] has failed. *)
Theorem load_serializes_between_writes (w : world) (ids : list Z) (e : exn) :
  select_project_numbers (dao self) (name self) (cycle_timestamp self) = Return ids →
  api_errors_only self ids →
  never_raises (parser self) →
  load_data_fault (dao self) (name self) (cycle_timestamp self)
    (call_rows (flat_call self ids None)) = Some e
  ∨ (load_data_fault (dao self) (name self) (cycle_timestamp self)
       (call_rows (flat_call self ids None)) = None
     ∧ load_data_fault (dao self) RAW_RESOURCE_NAME (cycle_timestamp self)
         (call_rows (raw_call json_dumps self ids None)) = Some e) →
  ∃ w' : world,
    _load json_dumps self (retrieved_refs self ids w)
      (_flatten self (retrieved_refs self ids w)) (retrieved self ids w)
    = (Raise (load_wrap e), w')
    ∧ (load_data_fault (dao self) (name self) (cycle_timestamp self)
         (call_rows (flat_call self ids None)) = Some e →
       heap w' = heap w ++ (to_map <$> fetched self ids))
    ∧ (load_data_fault (dao self) (name self) (cycle_timestamp self)
         (call_rows (flat_call self ids None)) = None →
       heap w' = heap w ++ (dumped json_dumps <$> (to_map <$> fetched self ids))).
Proof.
  intros Hsel Hapi Hp Hfault.
  rewrite load_after_retrieve by done. unfold load_outcome.
  destruct Hfault as [Hflat|[Hflat Hraw]].
  - rewrite Hflat. eexists. split; [done|]. split; [done|]. intros ?; discriminate.
  - rewrite Hflat, Hraw. eexists. split; [done|]. split; [intros ?; discriminate|done].
Qed.

End LoadOrder.

Lemma flatten_after_load_raises_witness :
  (api_errors_only Samples.pipeline_A [111; 222]%Z
   ∧ never_raises (parser Samples.pipeline_A)
   ∧ fetched Samples.pipeline_A [111; 222]%Z ≠ [])
  ∧ ∃ (refs : list loc) (w1 w2 : world),
      _retrieve Samples.pipeline_A Samples.empty_world = (Return refs, w1)
      ∧ _load Samples.sample_dumps Samples.pipeline_A refs
          (_flatten Samples.pipeline_A refs) w1 = (Return (), w2)
      ∧ iterate (_flatten Samples.pipeline_A refs) (heap w1)
        = (FlatRow <$> flatten_spec Samples.lenient_parser
                         (fetched Samples.pipeline_A [111; 222]%Z), None)
      ∧ iterate (_flatten Samples.pipeline_A refs) (heap w2)
        = ([], Some (AttributeError "'str' object has no attribute 'get'")).
Proof.
  assert (Hne : fetched Samples.pipeline_A [111; 222]%Z ≠ []) by discriminate.
  split.
  { split; [apply client_A_api_errors_only|].
    split; [exact lenient_parser_never_raises|exact Hne]. }
  exact (flatten_after_load_raises Samples.sample_dumps Samples.pipeline_A
           Samples.empty_world [111; 222]%Z eq_refl
           (client_A_api_errors_only _ _ _ _) lenient_parser_never_raises
           eq_refl eq_refl Hne).
Defined.

Lemma load_propagates_other_sink_errors_witness :
  (api_errors_only MoreSamples.pipeline_flat_other [111; 222]%Z
   ∧ never_raises (parser MoreSamples.pipeline_flat_other)
   ∧ ¬ is_storage_error (ValueError "bad row"))
  ∧ ∃ w' : world,
      _load Samples.sample_dumps MoreSamples.pipeline_flat_other [0]
        (_flatten MoreSamples.pipeline_flat_other [0])
        (retrieved MoreSamples.pipeline_flat_other [111; 222]%Z Samples.empty_world)
      = (Raise (ValueError "bad row"), w')
      ∧ run Samples.sample_dumps MoreSamples.pipeline_flat_other Samples.empty_world
        = (Raise (ValueError "bad row"), w').
Proof.
  split.
  { split; [apply client_A_api_errors_only|].
    split; [exact lenient_parser_never_raises|exact (λ H, H)]. }
  exact (load_propagates_other_sink_errors Samples.sample_dumps
           MoreSamples.pipeline_flat_other Samples.empty_world [111; 222]%Z
           (ValueError "bad row") eq_refl (client_A_api_errors_only _ _ _ _)
           lenient_parser_never_raises (λ H, H) (or_introl eq_refl)).
Defined.

Lemma load_serializes_between_writes_witness :
  (api_errors_only Samples.pipeline_raw_fails [111; 222]%Z
   ∧ never_raises (parser Samples.pipeline_raw_fails))
  ∧ ∃ w' : world,
      _load Samples.sample_dumps Samples.pipeline_raw_fails [0]
        (_flatten Samples.pipeline_raw_fails [0])
        (retrieved Samples.pipeline_raw_fails [111; 222]%Z Samples.empty_world)
      = (Raise (LoadDataPipelineError (MySQLError "LOAD DATA failed")), w')
      ∧ heap w'
        = [] ++ (dumped Samples.sample_dumps
                   <$> (to_map <$> fetched Samples.pipeline_raw_fails [111; 222]%Z)).
Proof.
  split.
  { split; [apply client_A_api_errors_only|exact lenient_parser_never_raises]. }
  destruct (load_serializes_between_writes Samples.sample_dumps
              Samples.pipeline_raw_fails Samples.empty_world [111; 222]%Z
              (MySQLError "LOAD DATA failed") eq_refl
              (client_A_api_errors_only _ _ _ _) lenient_parser_never_raises
              (or_intror (conj eq_refl eq_refl)))
    as (w' & Hload & _ & Hheap).
  exists w'. split; [exact Hload|exact (Hheap eq_refl)].
Defined.

(** ** What a run does whatever the collaborators answer *)

Lemma api_errors_only_cons (self : pipeline) (id : Z) (ids : list Z) :
  match get_project_iam_policies (gcp_api_client self) (name self) id with
  | Return _ => True
  | Raise (ApiExecutionError _) => True
  | Raise _ => False
  end →
  api_errors_only self ids →
  api_errors_only self (id :: ids).
Proof.
  intros Hid Hids x Hx. apply elem_of_cons in Hx as [->|Hx]; [done|by apply Hids].
Qed.

(** Either every fetch for [ids] succeeds or raises [ApiExecutionError],
    or there is a first id whose fetch raises something else. *)
Lemma fetch_outcomes_split (self : pipeline) (ids : list Z) :
  api_errors_only self ids
  ∨ ∃ l1 x l2 e,
      ids = l1 ++ x :: l2
      ∧ api_errors_only self l1
      ∧ get_project_iam_policies (gcp_api_client self) (name self) x = Raise e
      ∧ ∀ msg, e ≠ ApiExecutionError msg.
Proof.
  induction ids as [|id ids IH].
  - left. intros x Hx. by apply elem_of_nil in Hx.
  - assert (Hnil : api_errors_only self []).
    { intros x Hx. by apply elem_of_nil in Hx. }
    destruct (get_project_iam_policies (gcp_api_client self) (name self) id)
      as [pol|e] eqn:Hf.
    + destruct IH as [IH|(l1 & x & l2 & e & -> & Hl1 & Hx & Hne)].
      * left. apply api_errors_only_cons; [by rewrite Hf|done].
      * right. exists (id :: l1), x, l2, e. split; [done|]. split; [|done].
        apply api_errors_only_cons; [by rewrite Hf|done].
    + destruct e as [m|m|m|c|m|m|m];
        try (right; exists [], id, ids; eexists; split; [done|];
             split; [exact Hnil|]; split; [exact Hf|discriminate]).
      destruct IH as [IH|(l1 & x & l2 & e & -> & Hl1 & Hx & Hne)].
      * left. apply api_errors_only_cons; [by rewrite Hf|done].
      * right. exists (id :: l1), x, l2, e. split; [done|]. split; [|done].
        apply api_errors_only_cons; [by rewrite Hf|done].
Qed.

(** The three ways [_retrieve] can end. *)
Lemma retrieve_cases (self : pipeline) (w : world) :
  (∃ e, _retrieve self w = (Raise e, w))
  ∨ (∃ ids, _retrieve self w = (Return (retrieved_refs self ids w), retrieved self ids w))
  ∨ (∃ l1 x e, _retrieve self w = (Raise e, add_api_call x (retrieved self l1 w))).
Proof.
  destruct (select_project_numbers (dao self) (name self) (cycle_timestamp self))
    as [ids|e] eqn:Hsel.
  - destruct (fetch_outcomes_split self ids)
      as [Hapi|(l1 & x & l2 & e & -> & Hl1 & Hx & Hne)].
    + right. left. exists ids. by apply retrieve_ok.
    + right. right. exists l1, x, e.
      unfold _retrieve. unfold bind at 1. unfold try_except at 1. rewrite Hsel.
      by apply retrieve_loop_abort.
  - left. unfold _retrieve, bind, try_except. rewrite Hsel.
    destruct e; by eexists.
Qed.

Lemma world_extends_retrieved (self : pipeline) (ids : list Z) (w : world) :
  world_extends w (retrieved self ids w).
Proof.
  unfold world_extends, retrieved. cbn.
  split; [apply take_app_length|]. split; [by eexists|]. split; [by eexists|].
  exists []. by rewrite app_nil_r.
Qed.

Lemma world_extends_refl (w : world) : world_extends w w.
Proof.
  unfold world_extends. split; [by apply take_ge|].
  repeat split; exists []; by rewrite app_nil_r.
Qed.

Lemma try_except_world {A : Type} (body : M A) (handler : exn → option (M A)) (w : world) :
  (∀ e, handler e = None ∨ ∃ e', handler e = Some (raise e')) →
  (try_except body handler w).2 = (body w).2.
Proof.
  intros Hh. unfold try_except. destruct (body w) as [[a|e] w']; [done|].
  destruct (Hh e) as [->|[e' ->]]; done.
Qed.

Lemma load_handler_raises (e : exn) :
  match e with
  | CSVFileError _ | MySQLError _ => Some (@raise () (LoadDataPipelineError e))
  | _ => None
  end = None
  ∨ ∃ e', match e with
          | CSVFileError _ | MySQLError _ => Some (@raise () (LoadDataPipelineError e))
          | _ => None
          end = Some (raise e').
Proof. destruct e; (by left) || (right; by eexists). Qed.

Lemma load_data_frame (self : pipeline) (table cycle : string) (data : iterable)
    (w : world) :
  let w' := (load_data self table cycle data w).2 in
  heap w' = heap w ∧ api_calls w' = api_calls w
  ∧ logged_errors w' = logged_errors w ∧ count w' = count w
  ∧ match (load_data self table cycle data w).1 with
    | Return _ =>
        ∃ c, dao_calls w' = dao_calls w ++ [c]
             ∧ call_table c = table ∧ call_cycle c = cycle ∧ call_error c = None
    | Raise _ =>
        dao_calls w' = dao_calls w
        ∨ ∃ c, dao_calls w' = dao_calls w ++ [c]
               ∧ call_table c = table ∧ call_cycle c = cycle
    end.
Proof.
  unfold load_data. destruct (iterate data (heap w)) as [rows [e|]]; cbn.
  - repeat split; by left.
  - destruct (load_data_fault (dao self) table cycle rows) as [e|]; cbn;
      (repeat split; []); [right|]; by eexists.
Qed.

Lemma dump_loop_frame (json_dumps : py_value → string) (n : nat) (refs : list loc) :
  (∀ i : loc, i ∈ refs → (n ≤ i)%nat) →
  ∀ w, heap_frame n w (for_in refs (λ i _, dump_iam_policy json_dumps i) () w).2.
Proof.
  induction refs as [|i refs IH]; intros Hge w.
  - by cbn.
  - cbn [for_in]. unfold bind. unfold dump_iam_policy at 1.
    destruct (heap w !! i) as [d|]; [|by cbn].
    destruct (IH (λ j Hj, Hge j (list_elem_of_further _ _ _ Hj))
                 (set_heap (<[i := {| project_number := project_number d;
                                      iam_policy := Str (json_dumps (iam_policy d)) |}]>
                              (heap w)) w))
      as (Htake & Hlen & Hapi & Hlog & Hdao & Hcount).
    cbn [heap set_heap api_calls logged_errors dao_calls count] in *.
    unfold heap_frame. rewrite Htake, Hlen, Hapi, Hlog, Hdao, Hcount.
    rewrite take_insert_ge by (apply Hge, list_elem_of_here).
    by rewrite length_insert.
Qed.

(** What [_load] may change, for any addresses from [n] on, any
    iterable and any world. *)
Lemma load_world (json_dumps : py_value → string) (self : pipeline) (n : nat)
    (refs : list loc) (data : iterable) (w : world) :
  (∀ i : loc, i ∈ refs → (n ≤ i)%nat) →
  let w' := (_load json_dumps self refs data w).2 in
  take n (heap w') = take n (heap w)
  ∧ api_calls w' = api_calls w
  ∧ logged_errors w' = logged_errors w
  ∧ count w' = count w
  ∧ ∃ calls, dao_calls w' = dao_calls w ++ calls
             ∧ Forall (λ c, call_cycle c = cycle_timestamp self) calls
             ∧ load_calls_shape self calls.
Proof.
  intros Hge. cbn zeta. unfold _load.
  rewrite try_except_world by (intros e; apply load_handler_raises).
  unfold bind.
  pose proof (load_data_frame self (name self) (cycle_timestamp self) data w) as H1.
  destruct (load_data self (name self) (cycle_timestamp self) data w) as [[u|e] w1].
  2:{ cbn in H1. destruct H1 as (Hh & Ha & Hl & Hc & Hd). cbn [snd].
      rewrite Hh, Ha, Hl, Hc. do 4 (split; [done|]).
      destruct Hd as [Hd|(c & Hd & Ht & Hcy)].
      - exists []. rewrite app_nil_r. split; [done|]. split; [constructor|by left].
      - exists [c]. split; [done|]. split; [by repeat constructor|].
        right; left. by exists c. }
  cbn in H1. destruct H1 as (Hh & Ha & Hl & Hc & c1 & Hd & Ht & Hcy & Hok).
  pose proof (dump_loop_frame json_dumps n refs Hge w1)
    as (Htake & Hlen & Ha2 & Hl2 & Hd2 & Hc2).
  destruct (for_in refs (λ i _, dump_iam_policy json_dumps i) () w1) as [[u2|e2] w2].
  2:{ cbn [snd] in *. rewrite Htake, Ha2, Hl2, Hc2, Hd2, Hh, Ha, Hl, Hc, Hd.
      do 4 (split; [done|]). exists [c1]. split; [done|].
      split; [by repeat constructor|]. right; left. by exists c1. }
  cbn [snd] in *.
  pose proof (load_data_frame self RAW_RESOURCE_NAME (cycle_timestamp self)
                (DictList refs) w2) as H3.
  destruct (load_data self RAW_RESOURCE_NAME (cycle_timestamp self) (DictList refs) w2)
    as [[u3|e3] w3]; cbn in H3; destruct H3 as (Hh3 & Ha3 & Hl3 & Hc3 & Hd3); cbn [snd];
    rewrite Hh3, Ha3, Hl3, Hc3, Htake, Ha2, Hl2, Hc2, Hh, Ha, Hl, Hc;
    do 4 (split; [done|]).
  - destruct Hd3 as (c2 & Hd3 & Ht3 & Hcy3 & _).
    exists [c1; c2]. rewrite Hd3, Hd2, Hd, <- app_assoc. split; [done|].
    split; [by repeat constructor|]. right; right. by exists c1, c2.
  - destruct Hd3 as [Hd3|(c2 & Hd3 & Ht3 & Hcy3)].
    + exists [c1]. rewrite Hd3, Hd2, Hd. split; [done|].
      split; [by repeat constructor|]. right; left. by exists c1.
    + exists [c1; c2]. rewrite Hd3, Hd2, Hd, <- app_assoc. split; [done|].
      split; [by repeat constructor|]. right; right. by exists c1, c2.
Qed.

Lemma get_loaded_count_frame (self : pipeline) (w : world) :
  let w' := (_get_loaded_count self w).2 in
  heap w' = heap w ∧ api_calls w' = api_calls w
  ∧ logged_errors w' = logged_errors w ∧ dao_calls w' = dao_calls w.
Proof.
  unfold _get_loaded_count.
  by destruct (select_record_count (dao self) (name self) (cycle_timestamp self)).
Qed.

(** What a run may change, whatever the collaborators answer. *)
Lemma run_world (json_dumps : py_value → string) (self : pipeline) (w : world) :
  let w' := (run json_dumps self w).2 in
  take (length (heap w)) (heap w') = heap w
  ∧ (∃ l, api_calls w' = api_calls w ++ l)
  ∧ (∃ l, logged_errors w' = logged_errors w ++ l)
  ∧ ∃ calls, dao_calls w' = dao_calls w ++ calls
             ∧ Forall (λ c, call_cycle c = cycle_timestamp self) calls
             ∧ load_calls_shape self calls.
Proof.
  cbn zeta.
  assert (Hrun : run json_dumps self w
                 = match _retrieve self w with
                   | (Return refs, w1) =>
                       match _load json_dumps self refs (_flatten self refs) w1 with
                       | (Return _, w2) => _get_loaded_count self w2
                       | (Raise e, w2) => (Raise e, w2)
                       end
                   | (Raise e, w1) => (Raise e, w1)
                   end) by reflexivity.
  rewrite Hrun. clear Hrun.
  destruct (retrieve_cases self w) as [[e ->]|[[ids ->]|(l1 & x & e & ->)]].
  - cbn [snd]. split; [by apply take_ge|].
    split; [exists []; by rewrite app_nil_r|]. split; [exists []; by rewrite app_nil_r|].
    exists []. rewrite app_nil_r. split; [done|]. split; [constructor|by left].
  - pose proof (load_world json_dumps self (length (heap w)) (retrieved_refs self ids w)
                  (_flatten self (retrieved_refs self ids w)) (retrieved self ids w))
      as Hload.
    cbn zeta in Hload.
    destruct Hload as (Htake & Ha & Hl & Hc & calls & Hd & Hcy & Hshape).
    { intros i Hi. unfold retrieved_refs in Hi.
      apply list_elem_of_In, in_seq in Hi. lia. }
    cbn [retrieved heap api_calls logged_errors dao_calls] in *.
    rewrite take_app_length in Htake.
    destruct (_load json_dumps self (retrieved_refs self ids w)
                (_flatten self (retrieved_refs self ids w)) (retrieved self ids w))
      as [[u|e] w2]; cbn [snd] in *.
    + destruct (get_loaded_count_frame self w2) as (Hh3 & Ha3 & Hl3 & Hd3).
      rewrite Hh3, Ha3, Hl3, Hd3, Htake, Ha, Hl, Hd.
      split; [done|]. split; [by eexists|]. split; [by eexists|]. by exists calls.
    + rewrite Htake, Ha, Hl, Hd.
      split; [done|]. split; [by eexists|]. split; [by eexists|]. by exists calls.
  - cbn [snd add_api_call retrieved heap api_calls logged_errors dao_calls].
    split; [apply take_app_length|].
    split; [rewrite <- app_assoc; by eexists|]. split; [by eexists|].
    exists []. rewrite app_nil_r. split; [done|]. split; [constructor|by left].
Qed.

(** X12. Whatever the selector, the Policy Source, the parser and the
    sink answer, a run calls [load_data] at most twice: first for the
    flattened table and then, only if that write was stored, for the
    raw table; every call carries the cycle timestamp of the pipeline. *)
Theorem run_load_calls_shape (json_dumps : py_value → string) (self : pipeline)
    (w : world) :
  ∃ calls, dao_calls (run json_dumps self w).2 = dao_calls w ++ calls
           ∧ Forall (λ c, call_cycle c = cycle_timestamp self) calls
           ∧ load_calls_shape self calls.
Proof. apply (run_world json_dumps self w). Qed.

(** X13. Whatever the collaborators answer and however the run ends,
    it leaves the dictionaries that existed before it as they were, and
    keeps the earlier fetch calls, log entries and [load_data] calls,
    adding its own after them. *)
Theorem run_extends_world (json_dumps : py_value → string) (self : pipeline)
    (w : world) :
  world_extends w (run json_dumps self w).2.
Proof.
  destruct (run_world json_dumps self w) as (Hh & Ha & Hl & calls & Hd & _).
  unfold world_extends. split; [done|]. split; [done|]. split; [done|]. by exists calls.
Qed.

(** ** Runs one after the other *)

Lemma run_returns (json_dumps : py_value → string) (self : pipeline) (w : world)
    (ids : list Z) (n : Z) :
  select_project_numbers (dao self) (name self) (cycle_timestamp self) = Return ids →
  api_errors_only self ids →
  never_raises (parser self) →
  load_data_fault (dao self) (name self) (cycle_timestamp self)
    (call_rows (flat_call self ids None)) = None →
  load_data_fault (dao self) RAW_RESOURCE_NAME (cycle_timestamp self)
    (call_rows (raw_call json_dumps self ids None)) = None →
  select_record_count (dao self) (name self) (cycle_timestamp self) = Return n →
  run json_dumps self w
  = (Return (),
     {| heap := heap w ++ (dumped json_dumps <$> (to_map <$> fetched self ids));
        api_calls := api_calls w ++ ids;
        logged_errors := logged_errors w ++ fetch_failures self ids;
        dao_calls := dao_calls w ++ [flat_call self ids None;
                                     raw_call json_dumps self ids None];
        count := Some n |}).
Proof.
  intros Hsel Hapi Hp Hflat Hraw Hcount.
  rewrite (run_after_select json_dumps self ids) by done.
  unfold load_outcome. rewrite Hflat, Hraw. unfold _get_loaded_count. rewrite Hcount.
  unfold set_count, add_dao_call, set_heap, retrieved, dumped_heap. cbn.
  by rewrite <- app_assoc.
Qed.

(** X14. A second run of the same pipeline, started in the world the
    first one left, is not disturbed by the serialized dictionaries of
    the first: it fetches again, allocates its own dictionaries after
    them and hands the sink the same two row lists once more. *)
Theorem second_run_repeats_first (json_dumps : py_value → string) (self : pipeline)
    (w : world) (ids : list Z) (n : Z) :
  select_project_numbers (dao self) (name self) (cycle_timestamp self) = Return ids →
  api_errors_only self ids →
  never_raises (parser self) →
  load_data_fault (dao self) (name self) (cycle_timestamp self)
    (call_rows (flat_call self ids None)) = None →
  load_data_fault (dao self) RAW_RESOURCE_NAME (cycle_timestamp self)
    (call_rows (raw_call json_dumps self ids None)) = None →
  select_record_count (dao self) (name self) (cycle_timestamp self) = Return n →
  ∃ w1 w2 : world,
    run json_dumps self w = (Return (), w1)
    ∧ run json_dumps self w1 = (Return (), w2)
    ∧ dao_calls w2
      = dao_calls w ++ [flat_call self ids None; raw_call json_dumps self ids None;
                        flat_call self ids None; raw_call json_dumps self ids None]
    ∧ api_calls w2 = api_calls w ++ ids ++ ids
    ∧ heap w2
      = heap w ++ (dumped json_dumps <$> (to_map <$> fetched self ids))
               ++ (dumped json_dumps <$> (to_map <$> fetched self ids)).
Proof.
  intros Hsel Hapi Hp Hflat Hraw Hcount. eexists _, _.
  split; [by apply (run_returns json_dumps self w ids n)|].
  split; [by apply (run_returns json_dumps self _ ids n)|].
  cbn. by rewrite <- !app_assoc.
Qed.

Lemma second_run_repeats_first_witness :
  (api_errors_only Samples.pipeline_A [111; 222]%Z
   ∧ never_raises (parser Samples.pipeline_A))
  ∧ ∃ w1 w2 : world,
      run Samples.sample_dumps Samples.pipeline_A Samples.empty_world = (Return (), w1)
      ∧ run Samples.sample_dumps Samples.pipeline_A w1 = (Return (), w2)
      ∧ dao_calls w2
        = [] ++ [flat_call Samples.pipeline_A [111; 222]%Z None;
                 raw_call Samples.sample_dumps Samples.pipeline_A [111; 222]%Z None;
                 flat_call Samples.pipeline_A [111; 222]%Z None;
                 raw_call Samples.sample_dumps Samples.pipeline_A [111; 222]%Z None]
      ∧ api_calls w2 = [] ++ [111; 222]%Z ++ [111; 222]%Z
      ∧ heap w2
        = [] ++ (dumped Samples.sample_dumps
                   <$> (to_map <$> fetched Samples.pipeline_A [111; 222]%Z))
             ++ (dumped Samples.sample_dumps
                   <$> (to_map <$> fetched Samples.pipeline_A [111; 222]%Z)).
Proof.
  split.
  { split; [apply client_A_api_errors_only|exact lenient_parser_never_raises]. }
  exact (second_run_repeats_first Samples.sample_dumps Samples.pipeline_A
           Samples.empty_world [111; 222]%Z 1%Z eq_refl
           (client_A_api_errors_only _ _ _ _) lenient_parser_never_raises
           eq_refl eq_refl eq_refl).
Defined.

(** ** The logger registry *)

(** X15. The logger [get_logger] returns is the one the registry then
    holds under the module name, so a later [getLogger] for that name
    finds it with its handler; the loggers of all other names are as
    they were. *)
Theorem get_logger_registers_logger (FLAGS : LogUtil.flag_values) (is_gce : bool)
    (getenv_DEBUG : option string) (registry : gmap string LogUtil.logger)
    (module_name other : string) :
  other ≠ module_name →
  (LogUtil.get_logger FLAGS is_gce getenv_DEBUG registry module_name).2 !! module_name
  = Some (LogUtil.get_logger FLAGS is_gce getenv_DEBUG registry module_name).1
  ∧ LogUtil.getLogger
      (LogUtil.get_logger FLAGS is_gce getenv_DEBUG registry module_name).2 module_name
    = (LogUtil.get_logger FLAGS is_gce getenv_DEBUG registry module_name).1
  ∧ LogUtil.getLogger
      (LogUtil.get_logger FLAGS is_gce getenv_DEBUG registry module_name).2 other
    = LogUtil.getLogger registry other.
Proof.
  intros Hne. unfold LogUtil.get_logger. cbn [fst snd].
  split; [apply lookup_insert_eq|]. split.
  - unfold LogUtil.getLogger at 1. by rewrite lookup_insert_eq.
  - unfold LogUtil.getLogger. by rewrite lookup_insert_ne.
Qed.

Lemma get_logger_registers_logger_witness :
  "inventory" ≠ "scanner"
  ∧ (LogUtil.get_logger {| LogUtil.use_cloud_logging := true;
                           LogUtil.nouse_cloud_logging := false |}
       false None ∅ "scanner").2 !! "scanner"
    = Some (LogUtil.get_logger {| LogUtil.use_cloud_logging := true;
                                  LogUtil.nouse_cloud_logging := false |}
              false None ∅ "scanner").1
  ∧ LogUtil.getLogger
      (LogUtil.get_logger {| LogUtil.use_cloud_logging := true;
                             LogUtil.nouse_cloud_logging := false |}
         false None ∅ "scanner").2 "scanner"
    = (LogUtil.get_logger {| LogUtil.use_cloud_logging := true;
                             LogUtil.nouse_cloud_logging := false |}
         false None ∅ "scanner").1
  ∧ LogUtil.getLogger
      (LogUtil.get_logger {| LogUtil.use_cloud_logging := true;
                             LogUtil.nouse_cloud_logging := false |}
         false None ∅ "scanner").2 "inventory"
    = LogUtil.getLogger ∅ "inventory".
Proof.
  assert (Hne : "inventory" ≠ "scanner") by discriminate.
  split; [exact Hne|].
  exact (get_logger_registers_logger
           {| LogUtil.use_cloud_logging := true; LogUtil.nouse_cloud_logging := false |}
           false None ∅ "scanner" "inventory" Hne).
Defined.

Lemma get_logger_closed_form (FLAGS : LogUtil.flag_values) (is_gce : bool)
    (getenv_DEBUG : option string) (registry : gmap string LogUtil.logger)
    (module_name : string) :
  LogUtil.get_logger FLAGS is_gce getenv_DEBUG registry module_name
  = ({| LogUtil.handlers :=
          LogUtil.handlers (LogUtil.getLogger registry module_name)
          ++ [ {| LogUtil.handler_kind := LogUtil.StreamHandler;
                  LogUtil.formatter :=
                    Some "%(asctime)s %(name)-12s %(levelname)-8s %(message)s" |} ];
        LogUtil.logger_level :=
          Some (if LogUtil.truthy getenv_DEBUG then LogUtil.DEBUG else LogUtil.INFO) |},
     <[module_name :=
         {| LogUtil.handlers :=
              LogUtil.handlers (LogUtil.getLogger registry module_name)
              ++ [ {| LogUtil.handler_kind := LogUtil.StreamHandler;
                      LogUtil.formatter :=
                        Some "%(asctime)s %(name)-12s %(levelname)-8s %(message)s" |} ];
            LogUtil.logger_level :=
              Some (if LogUtil.truthy getenv_DEBUG
                    then LogUtil.DEBUG else LogUtil.INFO) |}]> registry).
Proof.
  unfold LogUtil.get_logger.
  destruct FLAGS as [[] []], is_gce, (LogUtil.truthy getenv_DEBUG); reflexivity.
Qed.

(** X16. Handlers accumulate: a second [get_logger] for the same module
    name attaches one more stream handler to the same logger, which
    then has two more handlers than before the first call, and sets the
    level again from the environment of the second call alone. *)
Theorem get_logger_again_adds_handler (FLAGS1 FLAGS2 : LogUtil.flag_values)
    (is_gce1 is_gce2 : bool) (getenv_DEBUG1 getenv_DEBUG2 : option string)
    (registry : gmap string LogUtil.logger) (module_name : string) :
  LogUtil.handlers
    (LogUtil.get_logger FLAGS2 is_gce2 getenv_DEBUG2
       (LogUtil.get_logger FLAGS1 is_gce1 getenv_DEBUG1 registry module_name).2
       module_name).1
  = LogUtil.handlers (LogUtil.getLogger registry module_name)
    ++ [ {| LogUtil.handler_kind := LogUtil.StreamHandler;
            LogUtil.formatter :=
              Some "%(asctime)s %(name)-12s %(levelname)-8s %(message)s" |};
         {| LogUtil.handler_kind := LogUtil.StreamHandler;
            LogUtil.formatter :=
              Some "%(asctime)s %(name)-12s %(levelname)-8s %(message)s" |} ]
  ∧ LogUtil.logger_level
      (LogUtil.get_logger FLAGS2 is_gce2 getenv_DEBUG2
         (LogUtil.get_logger FLAGS1 is_gce1 getenv_DEBUG1 registry module_name).2
         module_name).1
    = Some (if LogUtil.truthy getenv_DEBUG2 then LogUtil.DEBUG else LogUtil.INFO).
Proof.
  rewrite (get_logger_closed_form FLAGS1). cbn [fst snd].
  rewrite (get_logger_closed_form FLAGS2). cbn [fst snd LogUtil.handlers
                                                 LogUtil.logger_level].
  unfold LogUtil.getLogger at 1. rewrite lookup_insert_eq.
  cbn [LogUtil.handlers]. by rewrite <- app_assoc.
Qed.
